(** * StrellerMinds-Backend, Python SDK: the transport client

    A shallow embedding of [src/sdk/client.py]: the [ApiClient] class with its
    retry loop and error normalisation ([ApiClient._make_request]), the verb
    wrappers, the two mutators, and the part of the standard library the
    client leans on for URL resolution ([urllib.parse.urljoin]).

    Conventions.
    - Python [str] is [string]; the development covers ASCII text.
    - Python [int] is [Z].
    - Values produced by [response.json()] and stored in [ApiResponse.data] or
      in the fields of an [ApiError] are elements of [value].
    - Exceptions are explicit: a computation ends in [Ok a] or [Err e].
    - The network, [time.sleep] and [print] are effects of a computation in
      [M]: it reads a scripted sequence of transport outcomes and yields, next
      to its result, the trace of what the client did, in order.
    - The trace records every call of [session.request] with its arguments
      and with the headers the session holds at that moment.  What
      [requests] then puts on the wire is its own business; the part of it
      that decides the [Authorization] header is modelled in [Requests]. *)

From stdpp Require Import base gmap strings list pretty.
From Stdlib Require Import ZArith Ascii Lia.

Local Open Scope Z_scope.

(* ===================================================================== *)
(** * Python values and exceptions *)
(* ===================================================================== *)

(** The Python objects that [json.loads] can produce, plus [None].  A [dict]
    is kept as an association list in insertion order; keys are unique in a
    dictionary built by the JSON decoder, and [dict_get] reads the first
    binding. [VFloat] carries the IEEE-754 bit pattern; nothing here computes
    with it. *)
#[warnings="-register-all"]
Inductive value : Type :=
| VNone
| VBool (b : bool)
| VInt (z : Z)
| VFloat (bits : Z)
| VStr (s : string)
| VList (items : list value)
| VDict (kvs : list (string * value)).

(** [d.get(key, default)] on a dictionary. *)
Fixpoint dict_get (kvs : list (string * value)) (key : string) (default : value) : value :=
  match kvs with
  | [] => default
  | (k, v) :: rest => if String.eqb k key then v else dict_get rest key default
  end.

(** [class ApiError(Exception)]: [message] is the argument handed to
    [Exception.__init__]; it is whatever the error body held under
    ['message'], so it is a [value] and not necessarily a string.
    [details] defaults to [None]. *)
Module ApiError.
Record t : Type := mk {
  message : value;
  status : Z;
  code : value;
  details : value
}.
End ApiError.

(** The exceptions that can leave the client. *)
Inductive exn : Type :=
| ExApiError (e : ApiError.t)
| ExAttributeError
| ExValueError
| ExOverflowError
| ExValidationError.

Inductive res (A : Type) : Type :=
| Ok (a : A)
| Err (e : exn).
Arguments Ok {A} a.
Arguments Err {A} e.

(* ===================================================================== *)
(** * String primitives of Python used by the code *)
(* ===================================================================== *)

Module PyStr.

(** [s[:n]] *)
Fixpoint take (n : nat) (s : string) : string :=
  match n, s with
  | S n', String c s' => String c (take n' s')
  | _, _ => EmptyString
  end.

(** [s[n:]] *)
Fixpoint drop (n : nat) (s : string) : string :=
  match n, s with
  | S n', String _ s' => drop n' s'
  | _, _ => s
  end.

(** [c in s] for a one-character [c] *)
Fixpoint contains (c : ascii) (s : string) : bool :=
  match s with
  | EmptyString => false
  | String d s' => if Ascii.eqb d c then true else contains c s'
  end.

(** [s.find(c)]: [None] stands for Python's [-1]. *)
Fixpoint find (c : ascii) (s : string) : option nat :=
  match s with
  | EmptyString => None
  | String d s' => if Ascii.eqb d c then Some O else option_map S (find c s')
  end.

(** [s.find(c, start)] *)
Definition find_from (c : ascii) (s : string) (start : nat) : option nat :=
  option_map (fun i => (start + i)%nat) (find c (drop start s)).

(** [s.rfind(c)] *)
Fixpoint rfind (c : ascii) (s : string) : option nat :=
  match s with
  | EmptyString => None
  | String d s' =>
      match rfind c s' with
      | Some i => Some (S i)
      | None => if Ascii.eqb d c then Some O else None
      end
  end.

(** [s.split(c, 1)] when [c in s]: the text before and after the first [c]. *)
Definition split_once (c : ascii) (s : string) : string * string :=
  match find c s with
  | Some i => (take i s, drop (S i) s)
  | None => (s, EmptyString)
  end.

(** [s.partition(c)]: before, whether the separator was found, after. *)
Definition partition (c : ascii) (s : string) : string * bool * string :=
  match find c s with
  | Some i => (take i s, true, drop (S i) s)
  | None => (s, false, EmptyString)
  end.

(** [s.rpartition(c)[2]]: the text after the last [c], all of [s] without one. *)
Definition rpartition_last (c : ascii) (s : string) : string :=
  match rfind c s with
  | Some i => drop (S i) s
  | None => s
  end.

(** [s.split(c)]: always at least one piece. *)
Fixpoint split (c : ascii) (s : string) : list string :=
  match s with
  | EmptyString => [EmptyString]
  | String d s' =>
      if Ascii.eqb d c then EmptyString :: split c s'
      else match split c s' with
           | [] => [String d EmptyString]
           | p :: ps => String d p :: ps
           end
  end.

(** [c.join(pieces)] *)
Fixpoint join (c : ascii) (pieces : list string) : string :=
  match pieces with
  | [] => EmptyString
  | [p] => p
  | p :: ps => p +:+ String c (join c ps)
  end.

(** [s.replace(c, '')] *)
Fixpoint remove (c : ascii) (s : string) : string :=
  match s with
  | EmptyString => EmptyString
  | String d s' => if Ascii.eqb d c then remove c s' else String d (remove c s')
  end.

(** [s.lstrip(chars)], the character set given as a predicate *)
Fixpoint lstrip (p : ascii -> bool) (s : string) : string :=
  match s with
  | EmptyString => EmptyString
  | String d s' => if p d then lstrip p s' else s
  end.

(** [s.rstrip(chars)] *)
Fixpoint rstrip (p : ascii -> bool) (s : string) : string :=
  match s with
  | EmptyString => EmptyString
  | String d s' =>
      match rstrip p s' with
      | EmptyString => if p d then EmptyString else String d EmptyString
      | t => String d t
      end
  end.

(** [s.strip(chars)] *)
Definition strip (p : ascii -> bool) (s : string) : string :=
  rstrip p (lstrip p s).

Fixpoint forallb (p : ascii -> bool) (s : string) : bool :=
  match s with
  | EmptyString => true
  | String d s' => p d && forallb p s'
  end.

Fixpoint map (f : ascii -> ascii) (s : string) : string :=
  match s with
  | EmptyString => EmptyString
  | String d s' => String (f d) (map f s')
  end.

(** [s.startswith(c)] for a one-character [c] *)
Definition startswith (c : ascii) (s : string) : bool :=
  match s with
  | String d _ => Ascii.eqb d c
  | EmptyString => false
  end.

Definition is_empty (s : string) : bool :=
  match s with EmptyString => true | _ => false end.

Definition code_of (c : ascii) : nat := nat_of_ascii c.

Definition is_upper (c : ascii) : bool :=
  (65 <=? code_of c)%nat && (code_of c <=? 90)%nat.
Definition is_lower (c : ascii) : bool :=
  (97 <=? code_of c)%nat && (code_of c <=? 122)%nat.
Definition is_digit (c : ascii) : bool :=
  (48 <=? code_of c)%nat && (code_of c <=? 57)%nat.

(** [c.isascii() and c.isalpha()] *)
Definition is_ascii_alpha (c : ascii) : bool := is_upper c || is_lower c.

Definition lower_char (c : ascii) : ascii :=
  if is_upper c then ascii_of_nat (code_of c + 32) else c.
Definition upper_char (c : ascii) : ascii :=
  if is_lower c then ascii_of_nat (code_of c - 32) else c.

(** [s.lower()] and [s.upper()] on ASCII text *)
Definition lower : string -> string := map lower_char.
Definition upper : string -> string := map upper_char.

(** [str(n)] for an [int] *)
Definition str_of_int (n : Z) : string := pretty n.

End PyStr.


(* ===================================================================== *)
(** * [urllib.parse]: the functions behind [urljoin] *)
(* ===================================================================== *)

(** The client resolves every request path with [urljoin(base_url, url)].
    The definitions below follow CPython 3.11's [Lib/urllib/parse.py] for
    [str] arguments and [allow_fragments=True]: [urlsplit], [urlparse],
    [urlunsplit], [urlunparse] and [urljoin], with their private helpers.
    A named tuple is a tuple.  [_checknetloc] returns at once on ASCII text
    and is therefore absent.  [_check_bracketed_host] validates the text
    between square brackets with [ipaddress] and a regular expression; it is
    a parameter, [true] meaning that it returns without raising. *)
Module Urllib.
Import PyStr.

Definition uses_relative : list string :=
  ["" ; "ftp"; "http"; "gopher"; "nntp"; "imap";
   "wais"; "file"; "https"; "shttp"; "mms";
   "prospero"; "rtsp"; "rtspu"; "sftp";
   "svn"; "svn+ssh"; "ws"; "wss"].

Definition uses_netloc : list string :=
  [""; "ftp"; "http"; "gopher"; "nntp"; "telnet";
   "imap"; "wais"; "file"; "mms"; "https"; "shttp";
   "snews"; "prospero"; "rtsp"; "rtspu"; "rsync";
   "svn"; "svn+ssh"; "sftp"; "nfs"; "git"; "git+ssh";
   "ws"; "wss"].

Definition uses_params : list string :=
  [""; "ftp"; "hdl"; "prospero"; "http"; "imap";
   "https"; "shttp"; "rtsp"; "rtspu"; "sip"; "sips";
   "mms"; "sftp"; "tel"].

(** [x in l] for a list of strings *)
Definition in_list (x : string) (l : list string) : bool :=
  existsb (String.eqb x) l.

(** [c in scheme_chars] *)
Definition scheme_char (c : ascii) : bool :=
  is_lower c || is_upper c || is_digit c
  || Ascii.eqb c "+" || Ascii.eqb c "-" || Ascii.eqb c ".".

(** [c in _WHATWG_C0_CONTROL_OR_SPACE]: the codes 0 to 0x20 *)
Definition c0_control_or_space (c : ascii) : bool := (code_of c <=? 32)%nat.

Definition TAB : ascii := ascii_of_nat 9.
Definition CR : ascii := ascii_of_nat 13.
Definition LF : ascii := ascii_of_nat 10.

(** [for b in _UNSAFE_URL_BYTES_TO_REMOVE: s = s.replace(b, "")] *)
Definition remove_unsafe (s : string) : string :=
  remove LF (remove CR (remove TAB s)).

Definition _splitparams (url : string) : string * string :=
  if contains "/" url then
    match find_from ";" url (default O (rfind "/" url)) with
    | None => (url, EmptyString)
    | Some i => (take i url, drop (S i) url)
    end
  else
    match find ";" url with
    | Some i => (take i url, drop (S i) url)
    | None => (take (String.length url - 1) url, url)
    end.

Definition _splitnetloc (url : string) (start : nat) : string * string :=
  let delim :=
    fold_left
      (fun delim c =>
         match find_from c url start with
         | Some wdelim => Nat.min delim wdelim
         | None => delim
         end)
      ["/"%char; "?"%char; "#"%char] (String.length url) in
  (take (delim - start) (drop start url), drop delim url).

Section WithBracketedHostCheck.

Variable _check_bracketed_host : string -> bool.

(** [true] when [_check_bracketed_netloc(netloc)] returns, [false] when it
    raises [ValueError]. *)
Definition _check_bracketed_netloc (netloc : string) : bool :=
  let hostname_and_port := rpartition_last "@" netloc in
  let '(before_bracket, have_open_br, bracketed) := partition "[" hostname_and_port in
  if have_open_br then
    if negb (is_empty before_bracket) then false
    else
      let '(hostname, _, port) := partition "]" bracketed in
      if negb (is_empty port) && negb (startswith ":" port) then false
      else _check_bracketed_host hostname
  else
    let '(hostname, _, port) := partition ":" hostname_and_port in
    _check_bracketed_host hostname.

Definition urlsplit (url scheme : string)
  : res (string * string * string * string * string) :=
  let url := lstrip c0_control_or_space url in
  let scheme := strip c0_control_or_space scheme in
  let url := remove_unsafe url in
  let scheme := remove_unsafe scheme in
  let '(scheme, url) :=
    match find ":" url with
    | Some i =>
        if (0 <? i)%nat
           && match url with String c _ => is_ascii_alpha c | EmptyString => false end
           && forallb scheme_char (take i url)
        then (lower (take i url), drop (S i) url)
        else (scheme, url)
    | None => (scheme, url)
    end in
  let after_netloc :=
    if String.eqb (take 2 url) "//" then
      let '(netloc, url) := _splitnetloc url 2 in
      if (contains "[" netloc && negb (contains "]" netloc))
         || (contains "]" netloc && negb (contains "[" netloc))
      then Err ExValueError
      else if contains "[" netloc && contains "]" netloc
              && negb (_check_bracketed_netloc netloc)
      then Err ExValueError
      else Ok (netloc, url)
    else Ok (EmptyString, url) in
  match after_netloc with
  | Err e => Err e
  | Ok (netloc, url) =>
      let '(url, fragment) :=
        if contains "#" url then split_once "#" url else (url, EmptyString) in
      let '(url, query) :=
        if contains "?" url then split_once "?" url else (url, EmptyString) in
      Ok (scheme, netloc, url, query, fragment)
  end.

Definition urlparse (url scheme : string)
  : res (string * string * string * string * string * string) :=
  match urlsplit url scheme with
  | Err e => Err e
  | Ok (scheme, netloc, url, query, fragment) =>
      let '(url, params) :=
        if in_list scheme uses_params && contains ";" url
        then _splitparams url else (url, EmptyString) in
      Ok (scheme, netloc, url, params, query, fragment)
  end.

End WithBracketedHostCheck.

Definition urlunsplit (components : string * string * string * string * string) : string :=
  let '(scheme, netloc, url, query, fragment) := components in
  let url :=
    if negb (is_empty netloc)
       || (negb (is_empty scheme) && in_list scheme uses_netloc
           && negb (String.eqb (take 2 url) "//"))
    then
      let url :=
        if negb (is_empty url) && negb (String.eqb (take 1 url) "/")
        then "/" +:+ url else url in
      "//" +:+ netloc +:+ url
    else url in
  let url := if negb (is_empty scheme) then scheme +:+ ":" +:+ url else url in
  let url := if negb (is_empty query) then url +:+ "?" +:+ query else url in
  let url := if negb (is_empty fragment) then url +:+ "#" +:+ fragment else url in
  url.

Definition urlunparse
  (components : string * string * string * string * string * string) : string :=
  let '(scheme, netloc, url, params, query, fragment) := components in
  let url := if negb (is_empty params) then url +:+ ";" +:+ params else url in
  urlunsplit (scheme, netloc, url, query, fragment).

(** [segments[1:-1] = filter(None, segments[1:-1])] *)
Definition filter_inner (segments : list string) : list string :=
  match segments with
  | [] => []
  | first :: rest =>
      match rest with
      | [] => [first]
      | _ => first :: List.filter (fun s => negb (is_empty s)) (removelast rest)
                   ++ [List.last rest EmptyString]
      end
  end.

(** The loop over [segments] that builds [resolved_path]. *)
Definition resolve_step (resolved_path : list string) (seg : string) : list string :=
  if String.eqb seg ".." then removelast resolved_path
  else if String.eqb seg "." then resolved_path
  else resolved_path ++ [seg].

Definition resolve_segments (segments : list string) : list string :=
  let resolved_path := fold_left resolve_step segments [] in
  let final := List.last segments EmptyString in
  if String.eqb final "." || String.eqb final ".."
  then resolved_path ++ [EmptyString] else resolved_path.

(** ['/'.join(resolved_path) or '/'] *)
Definition joined_or_root (resolved_path : list string) : string :=
  let p := join "/" resolved_path in
  if is_empty p then "/" else p.

Section WithBracketedHostCheck.

Variable _check_bracketed_host : string -> bool.

Definition urljoin (base url : string) : res string :=
  if is_empty base then Ok url
  else if is_empty url then Ok base
  else
    match urlparse _check_bracketed_host base EmptyString with
    | Err e => Err e
    | Ok (bscheme, bnetloc, bpath, bparams, bquery, bfragment) =>
    match urlparse _check_bracketed_host url bscheme with
    | Err e => Err e
    | Ok (scheme, netloc, path, params, query, fragment) =>
        if negb (String.eqb scheme bscheme) || negb (in_list scheme uses_relative)
        then Ok url
        else if in_list scheme uses_netloc && negb (is_empty netloc)
        then Ok (urlunparse (scheme, netloc, path, params, query, fragment))
        else
          let netloc := if in_list scheme uses_netloc then bnetloc else netloc in
          if is_empty path && is_empty params then
            let path := bpath in
            let params := bparams in
            let query := if is_empty query then bquery else query in
            Ok (urlunparse (scheme, netloc, path, params, query, fragment))
          else
            let base_parts := split "/" bpath in
            let base_parts :=
              if negb (String.eqb (List.last base_parts EmptyString) EmptyString)
              then removelast base_parts else base_parts in
            let segments :=
              if String.eqb (take 1 path) "/" then split "/" path
              else filter_inner (base_parts ++ split "/" path) in
            Ok (urlunparse (scheme, netloc, joined_or_root (resolve_segments segments),
                            params, query, fragment))
    end
    end.

End WithBracketedHostCheck.

End Urllib.

(* ===================================================================== *)
(** * The [requests] objects the client touches *)
(* ===================================================================== *)

(** [requests.structures.CaseInsensitiveDict]: the store maps the lowered
    key to the pair of the key as last written and its value. *)
Module CaseInsensitiveDict.

Abbreviation t := (gmap string (string * string)).

Definition setitem (key val : string) (d : t) : t :=
  <[PyStr.lower key := (key, val)]> d.

Definition getitem (key : string) (d : t) : option string :=
  snd <$> d !! PyStr.lower key.

(** [d.update(other)] for a plain [dict] given in insertion order *)
Definition update (other : list (string * string)) (d : t) : t :=
  fold_left (fun acc kv => setitem kv.1 kv.2 acc) other d.

End CaseInsensitiveDict.

(** [requests.Response], as far as the client reads it.  [json] is the
    outcome of [response.json()]: [None] when the call raises (the body is not
    JSON), [Some v] when it returns [v]. *)
Module Response.
Record t : Type := mk {
  status_code : Z;
  text : string;
  json : option value;
  headers : list (string * string)
}.

(** [Response.ok]: [raise_for_status()] raises exactly for
    [400 <= status_code < 600]. *)
Definition ok (r : t) : bool :=
  negb ((400 <=? status_code r) && (status_code r <? 600)).
End Response.

(** [requests.Session], as far as the client writes to it: the default
    headers [session.headers], from which [requests] starts when it prepares
    a request, and the [timeout] attribute the constructor sets. *)
Module Session.
Record t : Type := mk {
  timeout : Z;
  headers : CaseInsensitiveDict.t
}.
End Session.

(* ===================================================================== *)
(** * The world outside: network, clock, standard output *)
(* ===================================================================== *)

(** What one call of [session.request] comes back with: a response, or a
    [requests.RequestException] whose [str()] is [msg]. *)
Inductive net_result : Type :=
| Received (r : Response.t)
| RequestException (msg : string).

(** One call of [session.request] as the client makes it: the method, the
    URL and the keyword arguments it passes, and [session.headers] as they
    are at the time of the call.  These are not the headers on the wire:
    [requests] derives those from the headers of the session, the URL, the
    environment and the cookies of the session (see [Requests]). *)
Module Sent.
Record t : Type := mk {
  method : string;
  url : string;
  headers : CaseInsensitiveDict.t;
  kwargs : list (string * value)
}.
End Sent.

Inductive event : Type :=
| Printed (line : string)
| Requested (req : Sent.t)
| Slept (seconds : Z).

(** The network is a script: [net 0] answers the next request, [net 1] the
    one after, and so on. *)
Abbreviation network := (nat -> net_result).

(** A computation reads the script, and yields a result or an exception, the
    events it caused in order, and the rest of the script. *)
Definition M (A : Type) : Type := network -> res A * list event * network.

Definition ret {A} (a : A) : M A := fun net => (Ok a, [], net).

Definition raise {A} (e : exn) : M A := fun net => (Err e, [], net).

Definition bind {A B} (m : M A) (k : A -> M B) : M B :=
  fun net =>
    match m net with
    | (Ok a, t1, net1) =>
        match k a net1 with
        | (r, t2, net2) => (r, t1 ++ t2, net2)
        end
    | (Err e, t1, net1) => (Err e, t1, net1)
    end.

Notation "x <- m ;; k" := (bind m (fun x => k))
  (at level 100, m at next level, right associativity).
Notation "m ;;; k" := (bind m (fun _ => k))
  (at level 100, right associativity).

Definition lift {A} (r : res A) : M A := fun net => (r, [], net).

(** [print(line)] *)
Definition print (line : string) : M unit :=
  fun net => (Ok tt, [Printed line], net).

(** The longest [time.sleep] takes: CPython turns the seconds into a count
    of nanoseconds held in 64 signed bits, and [9223372036 * 10^9] is the
    largest such product of a whole number of seconds that fits. *)
Definition max_sleep_seconds : Z := 9223372036.

(** [time.sleep(seconds)] for an [int]: the conversion to nanoseconds comes
    first and raises [OverflowError] outside
    [-max_sleep_seconds .. max_sleep_seconds]; a negative argument that
    converts raises [ValueError]. *)
Definition time_sleep (seconds : Z) : M unit :=
  fun net =>
    if (seconds <? - max_sleep_seconds) || (max_sleep_seconds <? seconds)
    then (Err ExOverflowError, [], net)
    else if seconds <? 0 then (Err ExValueError, [], net)
    else (Ok tt, [Slept seconds], net).

(** [session.request(method, url, **kwargs)]: the call is recorded with the
    headers the session holds, and takes the next answer of the script.  A
    [RequestException] is handed back as a value, for the [except] clause of
    the caller to look at. *)
Definition session_request (session : Session.t) (method url : string)
    (kwargs : list (string * value)) : M net_result :=
  fun net =>
    (Ok (net O),
     [Requested (Sent.mk method url (Session.headers session) kwargs)],
     fun k => net (S k)).

(** Control flow of a [for] body: fall through to the next iteration, or
    [return]. *)
Inductive flow (A : Type) : Type :=
| Continue
| Return (a : A).
Arguments Continue {A}.
Arguments Return {A} a.

(** [for i in items: body]; a function whose loop runs out returns [None]. *)
Fixpoint for_each {A} (items : list Z) (body : Z -> M (flow A)) : M (option A) :=
  match items with
  | [] => ret None
  | i :: rest =>
      f <- body i ;;
      match f with
      | Return a => ret (Some a)
      | Continue => for_each rest body
      end
  end.

(** [range(n)] *)
Definition range (n : Z) : list Z := List.map Z.of_nat (seq 0 (Z.to_nat n)).

(* ===================================================================== *)
(** * [client.py] *)
(* ===================================================================== *)

(** [class ApiResponse(BaseModel)] *)
Module ApiResponse.
Record t : Type := mk {
  data : value;
  status : Z;
  headers : list (string * string);
  success : bool
}.
End ApiResponse.

(** [class ApiClientConfig(BaseModel)]: six typed fields, no validator. *)
Module ApiClientConfig.
Record t : Type := mk {
  base_url : string;
  api_key : option string;
  timeout : Z;
  retries : Z;
  retry_delay : Z;
  debug : bool
}.

(** The keyword arguments of [ApiClientConfig(...)], equally the raw mapping
    handed to [ApiClient], when every value given has the type its field
    declares: a [str] for [base_url], a [str] or [None] for [api_key], an
    [int] for [timeout], [retries] and [retry_delay], a [bool] for [debug].
    Every key may be absent.  What pydantic does with a value of another
    type, refusing it or converting it, is not modelled: such mappings are
    outside [fields]. *)
Record fields : Type := mk_fields {
  f_base_url : option string;
  f_api_key : option (option string);
  f_timeout : option Z;
  f_retries : option Z;
  f_retry_delay : option Z;
  f_debug : option bool
}.

(** The constructor of [ApiClientConfig] on keyword arguments of the
    declared types: [base_url] is required, the other fields fall back to
    the defaults written in the class body, and no field has a validator, so
    a value of the right type is stored as it is. *)
Definition init (kw : fields) : res t :=
  match f_base_url kw with
  | None => Err ExValidationError
  | Some b =>
      Ok {| base_url := b;
            api_key := default None (f_api_key kw);
            timeout := default 30 (f_timeout kw);
            retries := default 3 (f_retries kw);
            retry_delay := default 1 (f_retry_delay kw);
            debug := default false (f_debug kw) |}
  end.
End ApiClientConfig.

(** [Union[ApiClientConfig, Dict]] *)
Inductive config_arg : Type :=
| AsConfig (c : ApiClientConfig.t)
| AsDict (d : ApiClientConfig.fields).

(** Truth value of an [Optional[str]]: [None] and [''] are false. *)
Definition truthy (s : option string) : bool :=
  match s with
  | Some s => negb (PyStr.is_empty s)
  | None => false
  end.

Module ApiClient.

Record t : Type := mk {
  config : ApiClientConfig.t;
  session : Session.t
}.

Section Client.

(** The headers of a fresh [requests.Session()]. *)
Variable default_headers : CaseInsensitiveDict.t.

(** See [Urllib]. *)
Variable _check_bracketed_host : string -> bool.

(** [ApiClient.__init__] *)
Definition __init__ (config : config_arg) : res t :=
  let validated :=
    match config with
    | AsDict d => ApiClientConfig.init d
    | AsConfig c => Ok c
    end in
  match validated with
  | Err e => Err e
  | Ok config =>
      let headers := [("Content-Type", "application/json")] in
      let headers :=
        if truthy (ApiClientConfig.api_key config)
        then headers ++ [("Authorization",
                          "Bearer " +:+ default EmptyString (ApiClientConfig.api_key config))]
        else headers in
      Ok {| config := config;
            session :=
              {| Session.timeout := ApiClientConfig.timeout config;
                 Session.headers := CaseInsensitiveDict.update headers default_headers |} |}
  end.

(** The failure branch of [_make_request] ([if not response.ok: ...]):
    [error_data] is the parsed body, or [{}] when parsing raises; the two
    [error_data.get] calls need it to be a [dict]. *)
Definition raise_for_response {A} (response : Response.t) : M A :=
  let error_data :=
    match Response.json response with
    | Some v => v
    | None => VDict []
    end in
  match error_data with
  | VDict kvs =>
      raise (ExApiError
        (ApiError.mk
           (dict_get kvs "message"
              (VStr ("Request failed with status "
                     +:+ PyStr.str_of_int (Response.status_code response))))
           (Response.status_code response)
           (dict_get kvs "code" (VStr "UNKNOWN_ERROR"))
           error_data))
  | _ => raise ExAttributeError
  end.

(** One iteration of the loop of [_make_request]. *)
Definition attempt_body (self : t) (method full_url : string)
    (kwargs : list (string * value)) (attempt : Z) : M (flow ApiResponse.t) :=
  let cfg := config self in
  (if ApiClientConfig.debug cfg
   then print ("[API Client] " +:+ PyStr.upper method +:+ " " +:+ full_url)
   else ret tt) ;;;
  outcome <- session_request (session self) method full_url kwargs ;;
  match outcome with
  | Received response =>
      if (500 <=? Response.status_code response)
         && (attempt <? ApiClientConfig.retries cfg)
      then
        time_sleep (ApiClientConfig.retry_delay cfg * (attempt + 1)) ;;;
        ret Continue
      else if negb (Response.ok response) then
        raise_for_response response
      else
        let data :=
          match Response.json response with
          | Some v => v
          | None => VStr (Response.text response)
          end in
        ret (Return (ApiResponse.mk data (Response.status_code response)
                       (Response.headers response) true))
  | RequestException e =>
      if attempt =? ApiClientConfig.retries cfg
      then raise (ExApiError (ApiError.mk (VStr e) 0 (VStr "NETWORK_ERROR") VNone))
      else
        time_sleep (ApiClientConfig.retry_delay cfg * (attempt + 1)) ;;;
        ret Continue
  end.

(** [ApiClient._make_request]; the result is [None] when the loop ends
    without [return] or [raise]. *)
Definition _make_request (self : t) (method url : string)
    (kwargs : list (string * value)) : M (option ApiResponse.t) :=
  full_url <- lift (Urllib.urljoin _check_bracketed_host
                      (ApiClientConfig.base_url (config self)) url) ;;
  for_each (range (ApiClientConfig.retries (config self) + 1))
           (attempt_body self method full_url kwargs).

(** [data] and [json_data] become keyword arguments when they are not [None]. *)
Definition body_kwargs (data json_data : value) : list (string * value) :=
  (match data with VNone => [] | _ => [("data", data)] end)
  ++ (match json_data with VNone => [] | _ => [("json", json_data)] end).

Definition get (self : t) (url : string) (params : value) : M (option ApiResponse.t) :=
  _make_request self "GET" url [("params", params)].

Definition post (self : t) (url : string) (data json_data : value) : M (option ApiResponse.t) :=
  _make_request self "POST" url (body_kwargs data json_data).

Definition put (self : t) (url : string) (data json_data : value) : M (option ApiResponse.t) :=
  _make_request self "PUT" url (body_kwargs data json_data).

Definition patch (self : t) (url : string) (data json_data : value) : M (option ApiResponse.t) :=
  _make_request self "PATCH" url (body_kwargs data json_data).

Definition delete (self : t) (url : string) : M (option ApiResponse.t) :=
  _make_request self "DELETE" url [].

End Client.

(** [ApiClient.set_api_key] *)
Definition set_api_key (self : t) (api_key : string) : t :=
  let cfg := config self in
  {| config :=
       {| ApiClientConfig.base_url := ApiClientConfig.base_url cfg;
          ApiClientConfig.api_key := Some api_key;
          ApiClientConfig.timeout := ApiClientConfig.timeout cfg;
          ApiClientConfig.retries := ApiClientConfig.retries cfg;
          ApiClientConfig.retry_delay := ApiClientConfig.retry_delay cfg;
          ApiClientConfig.debug := ApiClientConfig.debug cfg |};
     session :=
       {| Session.timeout := Session.timeout (session self);
          Session.headers :=
            CaseInsensitiveDict.setitem "Authorization" ("Bearer " +:+ api_key)
              (Session.headers (session self)) |} |}.

(** [ApiClient.set_base_url] *)
Definition set_base_url (self : t) (base_url : string) : t :=
  let cfg := config self in
  {| config :=
       {| ApiClientConfig.base_url := base_url;
          ApiClientConfig.api_key := ApiClientConfig.api_key cfg;
          ApiClientConfig.timeout := ApiClientConfig.timeout cfg;
          ApiClientConfig.retries := ApiClientConfig.retries cfg;
          ApiClientConfig.retry_delay := ApiClientConfig.retry_delay cfg;
          ApiClientConfig.debug := ApiClientConfig.debug cfg |};
     session := session self |}.

End ApiClient.

(* ===================================================================== *)
(** * [requests]: the [Authorization] header of the prepared request *)
(* ===================================================================== *)

(** [Session.request] prepares the request it sends from the session and
    from the call.  Its headers start as the headers of the session, the
    client passing none of its own.  [Session.prepare_request] and
    [PreparedRequest.prepare_auth] then look for credentials, as the client
    sets none on the session: first in the netrc file of the user
    ([get_netrc_auth], a session trusting its environment by default), then
    in the URL ([get_auth_from_url]).  Credentials found either way go out
    as HTTP Basic authentication: [HTTPBasicAuth] writes its own
    [Authorization] header over the one the headers had.

    The definitions follow [requests/sessions.py], [requests/models.py],
    [requests/utils.py] and [requests/auth.py] of requests 2.x, with
    [urllib.parse.unquote] and [base64.b64encode] of CPython 3.11, on ASCII
    text and for escapes below [%80].  [get_auth_from_url] reads the URL as
    it was given; requests reads it after [prepare_url], which keeps the
    part before [@].  A call whose URL or headers [requests] refuses has no
    prepared request: [session.request] raises a [RequestException], which
    is for the script of the network to answer the call with.  The requests
    that [requests] sends on its own when it follows a redirect, and the
    [Cookie] header it adds from the cookies of the session, are not
    modelled. *)
Module Requests.
Import PyStr.









Section WithEnvironment.

Variable _check_bracketed_host : string -> bool.

(** [get_netrc_auth(url)]: the login and password that the netrc file of
    the user holds for the host of the URL; [None] without such a file or
    entry. *)
Variable get_netrc_auth : string -> option (string * string).




End WithEnvironment.

End Requests.

(* ===================================================================== *)
(** * Reading a trace *)
(* ===================================================================== *)

(** The calls of [session.request] on a trace, in the order they were made. *)
Fixpoint requests_of (t : list event) : list Sent.t :=
  match t with
  | [] => []
  | Requested q :: t' => q :: requests_of t'
  | _ :: t' => requests_of t'
  end.

(** The durations slept, in order. *)
Fixpoint sleeps_of (t : list event) : list Z :=
  match t with
  | [] => []
  | Slept d :: t' => d :: sleeps_of t'
  | _ :: t' => sleeps_of t'
  end.

(** The script after [n] answers have been consumed. *)
Fixpoint shift (n : nat) (net : network) : network :=
  match n with
  | O => net
  | S n' => shift n' (fun k => net (S k))
  end.

(** The answers after which the loop may go round again: a response with a
    status of 500 or more, or a transport failure. *)
Definition retried (o : net_result) : bool :=
  match o with
  | Received r => 500 <=? Response.status_code r
  | RequestException _ => true
  end.

(** An error body the failure branch can read: no JSON at all, or a JSON
    object. *)
Definition readable_error_body (r : Response.t) : bool :=
  match Response.json r with
  | None => true
  | Some (VDict _) => true
  | Some _ => false
  end.

(** The [ApiError] built from a response with a readable error body. *)
Definition error_of_response (r : Response.t) : ApiError.t :=
  let kvs :=
    match Response.json r with
    | Some (VDict kvs) => kvs
    | _ => []
    end in
  ApiError.mk
    (dict_get kvs "message"
       (VStr ("Request failed with status " +:+ PyStr.str_of_int (Response.status_code r))))
    (Response.status_code r)
    (dict_get kvs "code" (VStr "UNKNOWN_ERROR"))
    (VDict kvs).


(** What one attempt puts on the trace before the answer is looked at: the
    debug line when [debug] is set, then the request. *)
Definition attempt_events (self : ApiClient.t) (method full_url : string)
    (kwargs : list (string * value)) : list event :=
  (if ApiClientConfig.debug (ApiClient.config self)
   then [Printed ("[API Client] " +:+ PyStr.upper method +:+ " " +:+ full_url)]
   else [])
  ++ [Requested (Sent.mk method full_url
                   (Session.headers (ApiClient.session self)) kwargs)].

(** The trace of [n] attempts that all went round again, the first of them
    numbered [a]. *)
Fixpoint retry_trace (self : ApiClient.t) (method full_url : string)
    (kwargs : list (string * value)) (a : nat) (n : nat) : list event :=
  match n with
  | O => []
  | S n' =>
      attempt_events self method full_url kwargs
      ++ [Slept (ApiClientConfig.retry_delay (ApiClient.config self) * (Z.of_nat a + 1))]
      ++ retry_trace self method full_url kwargs (S a) n'
  end.

(** [[d * 1; d * 2; ...; d * n]], shifted to start after attempt [a]. *)
Definition backoff (d : Z) (a n : nat) : list Z :=
  List.map (fun k => d * (Z.of_nat k + 1)) (seq a n).

(** A checker for bracketed hosts that lets everything through, as in the
    versions of [urllib.parse] that do not have the check. *)
Definition any_bracketed_host : string -> bool := fun _ => true.

(** A client built from the mapping of the test suite, with the headers of a
    session that starts out with none. *)
Definition client_of (kw : ApiClientConfig.fields) : ApiClient.t :=
  match ApiClient.__init__ ∅ (AsDict kw) with
  | Ok c => c
  | Err _ => ApiClient.mk (ApiClientConfig.mk EmptyString None 30 3 1 false) (Session.mk 30 ∅)
  end.

Definition test_fields : ApiClientConfig.fields :=
  ApiClientConfig.mk_fields (Some "https://api.example.com") (Some (Some "test-api-key"))
    None None None (Some false).

Definition test_client : ApiClient.t := client_of test_fields.

(** The two things a caller can see of a finished computation. *)
Definition outcome {A} (x : res A * list event * network) : res A := x.1.1.
Definition trace {A} (x : res A * list event * network) : list event := x.1.2.


(* ===================================================================== *)
(** * Scenarios of the test suite and of the specification *)
(* ===================================================================== *)

(** A double quote, for writing JSON text. *)
Definition dq : string := String (ascii_of_nat 34) EmptyString.

Definition json_headers : list (string * string) :=
  [("Content-Type", "application/json")].

(** Status 200 with the body [{"message": "success"}] ([test_authentication]). *)
Definition success_body : value := VDict [("message", VStr "success")].
Definition success_response : Response.t :=
  Response.mk 200
    ("{" +:+ dq +:+ "message" +:+ dq +:+ ": " +:+ dq +:+ "success" +:+ dq +:+ "}")
    (Some success_body) json_headers.

(** Status 400 with the validation error body ([test_error_handling]). *)
Definition validation_body : value :=
  VDict [("message", VStr "Bad Request");
         ("code", VStr "VALIDATION_ERROR");
         ("details", VDict [("field", VStr "email")])].
Definition validation_response : Response.t :=
  Response.mk 400
    ("{" +:+ dq +:+ "message" +:+ dq +:+ ": " +:+ dq +:+ "Bad Request" +:+ dq +:+ ", "
     +:+ dq +:+ "code" +:+ dq +:+ ": " +:+ dq +:+ "VALIDATION_ERROR" +:+ dq +:+ ", "
     +:+ dq +:+ "details" +:+ dq +:+ ": {" +:+ dq +:+ "field" +:+ dq +:+ ": "
     +:+ dq +:+ "email" +:+ dq +:+ "}}")
    (Some validation_body) json_headers.

(** A response whose body is the JSON array [[]]: valid JSON, not an object. *)
Definition array_response (status_code : Z) : Response.t :=
  Response.mk status_code "[]" (Some (VList [])) json_headers.

(** A response whose body is plain text, not JSON. *)
Definition text_response (status_code : Z) (text : string) : Response.t :=
  Response.mk status_code text None [("Content-Type", "text/plain")].

(** A mapping that [ApiClientConfig] accepts although it breaks the range
    the specification gives for [retries] and [timeout]. *)
Definition negative_fields : ApiClientConfig.fields :=
  ApiClientConfig.mk_fields (Some "https://api.example.com") None
    (Some 0) (Some (-1)) None None.





(* ===================================================================== *)
(** * [__init__.py]: the facade *)
(* ===================================================================== *)

(** Modelled from the spec: [UsersResource], the class of [self.users].
    It lives in [resources/users.py], which is not among the files.  The
    specification (4.2) has a resource hold the client it is given and call
    back into it, with no logic of its own; the record keeps that client,
    and the operations of the resource are not modelled. *)
Module UsersResource.
Record t : Type := mk {
  client : ApiClient.t
}.
End UsersResource.

(** [class NestJSApiSDK].  [self.users] is built on [self.client]: the two
    share one client object, so what a mutator does to the client shows in
    both. *)
Module NestJSApiSDK.

Record t : Type := mk {
  client : ApiClient.t;
  users : UsersResource.t
}.

Section SDK.

Variable default_headers : CaseInsensitiveDict.t.
Variable _check_bracketed_host : string -> bool.

(** [NestJSApiSDK.__init__] *)
Definition __init__ (config : config_arg) : res t :=
  match ApiClient.__init__ default_headers config with
  | Ok c => Ok (mk c (UsersResource.mk c))
  | Err e => Err e
  end.

Definition get (self : t) (url : string) (params : value) : M (option ApiResponse.t) :=
  ApiClient.get _check_bracketed_host (client self) url params.

Definition post (self : t) (url : string) (data json_data : value) : M (option ApiResponse.t) :=
  ApiClient.post _check_bracketed_host (client self) url data json_data.

Definition put (self : t) (url : string) (data json_data : value) : M (option ApiResponse.t) :=
  ApiClient.put _check_bracketed_host (client self) url data json_data.

Definition patch (self : t) (url : string) (data json_data : value) : M (option ApiResponse.t) :=
  ApiClient.patch _check_bracketed_host (client self) url data json_data.

Definition delete (self : t) (url : string) : M (option ApiResponse.t) :=
  ApiClient.delete _check_bracketed_host (client self) url.

End SDK.

(** [NestJSApiSDK.set_api_key]: [self.client.set_api_key(api_key)], on the
    client object that [self.users] holds too. *)
Definition set_api_key (self : t) (api_key : string) : t :=
  let c := ApiClient.set_api_key (client self) api_key in
  mk c (UsersResource.mk c).

(** [NestJSApiSDK.set_base_url], likewise. *)
Definition set_base_url (self : t) (base_url : string) : t :=
  let c := ApiClient.set_base_url (client self) base_url in
  mk c (UsersResource.mk c).

End NestJSApiSDK.

(* ===================================================================== *)
(** * More ways to read a trace *)
(* ===================================================================== *)

(** The lines printed, in order. *)
Fixpoint prints_of (t : list event) : list string :=
  match t with
  | [] => []
  | Printed line :: t' => line :: prints_of t'
  | _ :: t' => prints_of t'
  end.

(** The trace without its printed lines. *)
Fixpoint without_prints (t : list event) : list event :=
  match t with
  | [] => []
  | Printed _ :: t' => without_prints t'
  | e :: t' => e :: without_prints t'
  end.

(** The line [_make_request] prints before a request when [debug] is set. *)
Definition debug_line (method full_url : string) : string :=
  "[API Client] " +:+ PyStr.upper method +:+ " " +:+ full_url.

(** The client with the [debug] field of its configuration set to [b]. *)
Definition with_debug (self : ApiClient.t) (b : bool) : ApiClient.t :=
  let cfg := ApiClient.config self in
  {| ApiClient.config :=
       {| ApiClientConfig.base_url := ApiClientConfig.base_url cfg;
          ApiClientConfig.api_key := ApiClientConfig.api_key cfg;
          ApiClientConfig.timeout := ApiClientConfig.timeout cfg;
          ApiClientConfig.retries := ApiClientConfig.retries cfg;
          ApiClientConfig.retry_delay := ApiClientConfig.retry_delay cfg;
          ApiClientConfig.debug := b |};
     ApiClient.session := ApiClient.session self |}.

(** A network that gives the same answer every time. *)
Definition always (o : net_result) : network := fun _ => o.

(** A network that answers the first request with [first] and goes on as [rest]. *)
Definition first_then (first : net_result) (rest : network) : network :=
  fun k => match k with O => first | S k' => rest k' end.

(** A client like [test_client] with other values for [retries] and
    [retry_delay]. *)
Definition client_with (retries retry_delay : Z) (debug : bool) : ApiClient.t :=
  client_of (ApiClientConfig.mk_fields (Some "https://api.example.com")
               (Some (Some "test-api-key")) None (Some retries) (Some retry_delay)
               (Some debug)).

(** What the keyword arguments of [post], [put] and [patch] hold of the two
    bodies: [data] under the key [data] when it is not [None], [json_data]
    under the key [json] when it is not [None], and nothing else. *)
Definition forwards_bodies (data json_data : value) (kwargs : list (string * value)) : Prop :=
  (forall v, In ("data", v) kwargs <-> v = data /\ data <> VNone)
  /\ (forall v, In ("json", v) kwargs <-> v = json_data /\ json_data <> VNone)
  /\ (forall k v, In (k, v) kwargs -> k = "data" \/ k = "json").

(** The time a call spends sleeping. *)
Definition total_sleep (t : list event) : Z := fold_right Z.add 0 (sleeps_of t).
(* ===================================================================== *)
(** * Traces *)
(* ===================================================================== *)

Lemma requests_of_app (t1 t2 : list event) :
  requests_of (t1 ++ t2) = requests_of t1 ++ requests_of t2.
Proof.
  induction t1 as [|e t1 IH]; [reflexivity|].
  destruct e; simpl; rewrite IH; reflexivity.
Qed.

Lemma sleeps_of_app (t1 t2 : list event) :
  sleeps_of (t1 ++ t2) = sleeps_of t1 ++ sleeps_of t2.
Proof.
  induction t1 as [|e t1 IH]; [reflexivity|].
  destruct e; simpl; rewrite IH; reflexivity.
Qed.

Lemma shift_apply (n : nat) : forall (net : network) (k : nat),
  shift n net k = net (n + k)%nat.
Proof.
  induction n as [|n IH]; intros net k; simpl; [reflexivity|].
  rewrite IH. reflexivity.
Qed.

Section Attempts.

Variables (self : ApiClient.t) (method full_url : string).
Variable kwargs : list (string * value).

Local Abbreviation cfg := (ApiClient.config self).
Local Abbreviation sent := (Sent.mk method full_url (Session.headers (ApiClient.session self)) kwargs).
Local Abbreviation events := (attempt_events self method full_url kwargs).
Local Abbreviation body := (ApiClient.attempt_body self method full_url kwargs).

Lemma requests_of_attempt_events : requests_of events = [sent].
Proof.
  unfold attempt_events.
  destruct (ApiClientConfig.debug _); reflexivity.
Qed.

Lemma sleeps_of_attempt_events : sleeps_of events = [].
Proof.
  unfold attempt_events.
  destruct (ApiClientConfig.debug _); reflexivity.
Qed.

Lemma requests_of_retry_trace (n : nat) : forall a,
  requests_of (retry_trace self method full_url kwargs a n) = repeat sent n.
Proof.
  induction n as [|n IH]; intros a; [reflexivity|].
  cbn [retry_trace].
  rewrite !requests_of_app, IH, requests_of_attempt_events. reflexivity.
Qed.

Lemma sleeps_of_retry_trace (n : nat) : forall a,
  sleeps_of (retry_trace self method full_url kwargs a n)
  = backoff (ApiClientConfig.retry_delay cfg) a n.
Proof.
  induction n as [|n IH]; intros a; [reflexivity|].
  cbn [retry_trace].
  rewrite !sleeps_of_app, IH, sleeps_of_attempt_events. reflexivity.
Qed.

(** An attempt whose answer is retried while attempts remain sleeps and
    goes round. *)
Lemma attempt_retry (attempt : Z) (net : network) :
  retried (net O) = true ->
  attempt < ApiClientConfig.retries cfg ->
  0 <= ApiClientConfig.retry_delay cfg * (attempt + 1) <= max_sleep_seconds ->
  body attempt net
  = (Ok Continue,
     events ++ [Slept (ApiClientConfig.retry_delay cfg * (attempt + 1))],
     fun k => net (S k)).
Proof.
  intros Hr Hlt Hd.
  unfold ApiClient.attempt_body, attempt_events, bind,
    session_request, print, ret, time_sleep.
  assert (Hs : (ApiClientConfig.retry_delay cfg * (attempt + 1) <? 0) = false)
    by (apply Z.ltb_ge; apply Hd).
  assert (Ho : (ApiClientConfig.retry_delay cfg * (attempt + 1) <? - max_sleep_seconds)
               || (max_sleep_seconds <? ApiClientConfig.retry_delay cfg * (attempt + 1))
               = false).
  { apply orb_false_iff. split; [apply Z.ltb_ge | apply Z.ltb_ge; apply Hd].
    unfold max_sleep_seconds. lia. }
  destruct (ApiClientConfig.debug cfg); simpl;
    destruct (net O) as [response|e]; simpl in *.
  - rewrite Hr. replace (attempt <? ApiClientConfig.retries cfg) with true
      by (symmetry; apply Z.ltb_lt; exact Hlt).
    simpl. rewrite Ho, Hs. reflexivity.
  - replace (attempt =? ApiClientConfig.retries cfg) with false
      by (symmetry; apply Z.eqb_neq; lia).
    rewrite Ho, Hs. reflexivity.
  - rewrite Hr. replace (attempt <? ApiClientConfig.retries cfg) with true
      by (symmetry; apply Z.ltb_lt; exact Hlt).
    simpl. rewrite Ho, Hs. reflexivity.
  - replace (attempt =? ApiClientConfig.retries cfg) with false
      by (symmetry; apply Z.eqb_neq; lia).
    rewrite Ho, Hs. reflexivity.
Qed.


(** A response that is not retried and is not [ok] raises: the [ApiError] of
    the body when the body is readable, [AttributeError] when it is not. *)
Lemma attempt_http_error (attempt : Z) (net : network) (r : Response.t) :
  net O = Received r ->
(500 <=? Response.status_code r) && (attempt <? ApiClientConfig.retries cfg) = false ->
  Response.ok r = false ->
  body attempt net
  = (Err (if readable_error_body r
          then ExApiError (error_of_response r) else ExAttributeError),
     events, fun k => net (S k)).
Proof.
  intros Hn Hno Hok.
  unfold ApiClient.attempt_body, attempt_events, bind,
    session_request, print, ret, raise.
  unfold ApiClient.raise_for_response, readable_error_body, error_of_response, raise.
  destruct (ApiClientConfig.debug cfg); simpl; rewrite Hn, Hno, Hok; simpl;
    destruct (Response.json r) as [[]|]; reflexivity.
Qed.


(** [n] retried attempts in a row, numbered from [a], all before the last
    attempt: the loop is where it would be had it started [n] attempts later. *)
Lemma for_each_retries (n : nat) : forall (a : nat) (rest : list Z) (net : network),
  ((0 < n)%nat ->
   0 <= ApiClientConfig.retry_delay cfg
   /\ ApiClientConfig.retry_delay cfg * (Z.of_nat a + Z.of_nat n) <= max_sleep_seconds) ->
  Z.of_nat a + Z.of_nat n <= ApiClientConfig.retries cfg ->
  (forall k, (k < n)%nat -> retried (net k) = true) ->
  for_each (List.map Z.of_nat (seq a n) ++ rest) body net
  = match for_each rest body (shift n net) with
    | (r, t, net') => (r, retry_trace self method full_url kwargs a n ++ t, net')
    end.
Proof.
  induction n as [|n IH]; intros a rest net Hd Hle Hall.
  - simpl. destruct (for_each rest body net) as [[r t] net']. reflexivity.
  - cbn [seq List.map app for_each retry_trace shift].
    unfold bind at 1.
    assert (Hd' : 0 <= ApiClientConfig.retry_delay cfg
                  /\ ApiClientConfig.retry_delay cfg * (Z.of_nat a + Z.of_nat (S n))
                     <= max_sleep_seconds) by (apply Hd; lia).
    destruct Hd' as [Hd0 Hd1].
    rewrite attempt_retry; [| apply (Hall O); lia | lia | nia].
    rewrite (IH (S a) rest (fun k => net (S k)));
      [| intros _; split; [exact Hd0 | lia] | lia |].
    + destruct (for_each rest body (shift n _)) as [[r t] net'].
      rewrite <- !app_assoc. reflexivity.
    + intros k Hk. apply (Hall (S k)). lia.
Qed.

End Attempts.

(* ===================================================================== *)
(** * The request loop as a whole *)
(* ===================================================================== *)

Lemma range_split (retries : Z) (n : nat) :
  Z.of_nat n <= retries ->
  range (retries + 1)
  = List.map Z.of_nat (seq 0 n)
    ++ Z.of_nat n :: List.map Z.of_nat (seq (S n) (Z.to_nat retries - n)).
Proof.
  intros Hn. unfold range.
  replace (Z.to_nat (retries + 1)) with (n + S (Z.to_nat retries - n))%nat by lia.
  rewrite seq_app, List.map_app. reflexivity.
Qed.

Lemma range_nonpositive (n : Z) : n <= 0 -> range n = [].
Proof.
  intros Hn. unfold range. replace (Z.to_nat n) with O by lia. reflexivity.
Qed.

Section Requests.

Variable _check_bracketed_host : string -> bool.
Variables (self : ApiClient.t) (method url full_url : string).
Variable kwargs : list (string * value).

Local Abbreviation cfg := (ApiClient.config self).
Local Abbreviation events := (attempt_events self method full_url kwargs).
Local Abbreviation body := (ApiClient.attempt_body self method full_url kwargs).
Local Abbreviation request := (ApiClient._make_request _check_bracketed_host self method url kwargs).

Hypothesis resolved :
  Urllib.urljoin _check_bracketed_host (ApiClientConfig.base_url cfg) url = Ok full_url.

Lemma make_request_resolved (net : network) :
  request net = for_each (range (ApiClientConfig.retries cfg + 1)) body net.
Proof.
  unfold ApiClient._make_request, bind, lift.
  rewrite resolved.
  destruct (for_each _ body net) as [[r t] net']. reflexivity.
Qed.

(** After [n] retried attempts the call stands or falls with attempt [n]. *)
Lemma make_request_at (n : nat) (net : network) :
  ((0 < n)%nat ->
   0 <= ApiClientConfig.retry_delay cfg
   /\ ApiClientConfig.retry_delay cfg * Z.of_nat n <= max_sleep_seconds) ->
  Z.of_nat n <= ApiClientConfig.retries cfg ->
  (forall k, (k < n)%nat -> retried (net k) = true) ->
  request net
  = match body (Z.of_nat n) (shift n net) with
    | (Ok (Return a), t, net') =>
        (Ok (Some a), retry_trace self method full_url kwargs 0 n ++ t, net')
    | (Ok Continue, t, net') =>
        match for_each (List.map Z.of_nat
                          (seq (S n) (Z.to_nat (ApiClientConfig.retries cfg) - n)))
                       body net' with
        | (r, t', net'') =>
            (r, retry_trace self method full_url kwargs 0 n ++ t ++ t', net'')
        end
    | (Err e, t, net') =>
        (Err e, retry_trace self method full_url kwargs 0 n ++ t, net')
    end.
Proof.
  intros Hd Hn Hall.
  rewrite make_request_resolved, (range_split _ n Hn).
  rewrite for_each_retries;
    [| intros Hpos; destruct (Hd Hpos); split; [assumption | lia] | lia | exact Hall].
  cbn [for_each]. unfold bind at 1.
  destruct (ApiClient.attempt_body self method full_url kwargs (Z.of_nat n) (shift n net))
    as [[[[|a]|e] t] net']; [| | reflexivity].
  - destruct (for_each _ _ net') as [[r t'] net'']. reflexivity.
  - unfold ret. rewrite app_nil_r. reflexivity.
Qed.



(** Attempt [n] gets a response below 500 that is not [ok]: the call ends
    there with the error of that response. *)
Lemma make_request_client_error (n : nat) (net : network) (r : Response.t) :
  ((0 < n)%nat ->
   0 <= ApiClientConfig.retry_delay cfg
   /\ ApiClientConfig.retry_delay cfg * Z.of_nat n <= max_sleep_seconds) ->
  Z.of_nat n <= ApiClientConfig.retries cfg ->
  (forall k, (k < n)%nat -> retried (net k) = true) ->
  net n = Received r ->
  Response.status_code r < 500 ->
  Response.ok r = false ->
  request net
  = (Err (if readable_error_body r
          then ExApiError (error_of_response r) else ExAttributeError),
     retry_trace self method full_url kwargs 0 n ++ events,
     fun k => shift n net (S k)).
Proof.
  intros Hd Hn Hall Hnet Hlt Hok.
  rewrite (make_request_at n); [| exact Hd | exact Hn | exact Hall].
  rewrite (attempt_http_error _ _ _ _ _ _ r).
  - reflexivity.
  - rewrite shift_apply, Nat.add_0_r. exact Hnet.
  - apply andb_false_iff. left. apply Z.leb_gt. exact Hlt.
  - exact Hok.
Qed.


End Requests.

(* ===================================================================== *)
(** * What every request carries *)
(* ===================================================================== *)

Section Carried.

Variables (self : ApiClient.t) (method full_url : string).
Variable kwargs : list (string * value).

Local Abbreviation sent := (Sent.mk method full_url (Session.headers (ApiClient.session self)) kwargs).
Local Abbreviation body := (ApiClient.attempt_body self method full_url kwargs).

(** Whatever the answer, an attempt sends one request: the method, the
    resolved address, the headers of the session and the keyword arguments. *)
Lemma attempt_sends_one_request (attempt : Z) (net : network) :
  requests_of (trace (body attempt net)) = [sent].
Proof.
  unfold ApiClient.attempt_body, ApiClient.raise_for_response, bind,
    session_request, print, ret, raise, time_sleep, trace.
  destruct (ApiClientConfig.debug (ApiClient.config self)); cbn -[Z.mul Z.add];
    destruct (net O) as [r|e]; cbn -[Z.mul Z.add];
    repeat match goal with
    | |- context [if ?b then _ else _] => destruct b; cbn -[Z.mul Z.add]
    | |- context [match Response.json ?r with _ => _ end] =>
        destruct (Response.json r) as [[]|]; cbn -[Z.mul Z.add]
    end; reflexivity.
Qed.

(** The loop sends one request per attempt it gets to, at least one when
    there is an attempt to make. *)
Lemma for_each_requests (items : list Z) : forall net : network,
  exists n : nat,
    requests_of (trace (for_each items body net)) = repeat sent n
    /\ (n <= length items)%nat
    /\ (items <> [] -> (0 < n)%nat).
Proof.
  induction items as [|i rest IH]; intros net.
  - exists O. repeat split; [cbn; lia | intros H; contradiction].
  - pose proof (attempt_sends_one_request i net) as Hone.
    cbn [for_each]. unfold bind at 1.
    destruct (body i net) as [[[[|a]|e] t] net'] eqn:Hbody;
      unfold trace in Hone; cbn [fst snd] in Hone.
    + destruct (IH net') as (n & Hn & Hle & _).
      destruct (for_each rest body net') as [[r' t'] net''].
      unfold trace in *. cbn [fst snd] in *.
      exists (S n). rewrite requests_of_app, Hone, Hn.
      repeat split; cbn [length]; lia.
    + exists 1%nat. unfold ret, trace. cbn [fst snd].
      rewrite app_nil_r, Hone. repeat split; cbn [length]; lia.
    + exists 1%nat. unfold trace. cbn [fst snd]. rewrite Hone.
      repeat split; cbn [length]; lia.
Qed.

End Carried.

Section CarriedByRequest.

Variable _check_bracketed_host : string -> bool.
Variables (self : ApiClient.t) (method url : string).
Variable kwargs : list (string * value).

(** Every request of a call goes to the address [urljoin] gave for the
    current [base_url], with the current headers of the session; when
    [retries] is not negative there is at least one. *)
Lemma make_request_requests (full_url : string) (net : network) :
  Urllib.urljoin _check_bracketed_host
    (ApiClientConfig.base_url (ApiClient.config self)) url = Ok full_url ->
  exists n : nat,
    requests_of (trace (ApiClient._make_request _check_bracketed_host self method url kwargs net))
    = repeat (Sent.mk method full_url (Session.headers (ApiClient.session self)) kwargs) n
    /\ (0 <= ApiClientConfig.retries (ApiClient.config self) -> (0 < n)%nat).
Proof.
  intros Hurl.
  rewrite (make_request_resolved _ _ _ _ _ _ Hurl).
  destruct (for_each_requests self method full_url kwargs
              (range (ApiClientConfig.retries (ApiClient.config self) + 1)) net)
    as (n & Hn & _ & Hpos).
  exists n. split; [exact Hn|].
  intros Hr. apply Hpos. unfold range.
  replace (Z.to_nat (ApiClientConfig.retries (ApiClient.config self) + 1))
    with (S (Z.to_nat (ApiClientConfig.retries (ApiClient.config self)))) by lia.
  discriminate.
Qed.

(** When [urljoin] raises, nothing is sent. *)
Lemma make_request_unresolved (e : exn) (net : network) :
  Urllib.urljoin _check_bracketed_host
    (ApiClientConfig.base_url (ApiClient.config self)) url = Err e ->
  ApiClient._make_request _check_bracketed_host self method url kwargs net = (Err e, [], net).
Proof.
  intros Hurl. unfold ApiClient._make_request, bind, lift. rewrite Hurl. reflexivity.
Qed.

End CarriedByRequest.

Lemma for_each_cons {A} (i : Z) (rest : list Z) (body : Z -> M (flow A)) :
  for_each (i :: rest) body
  = (f <- body i ;;
     match f with
     | Return a => ret (Some a)
     | Continue => for_each rest body
     end).
Proof. reflexivity. Qed.

(* ===================================================================== *)
(** * The shape of every call *)
(* ===================================================================== *)

Section Shape.

Variables (self : ApiClient.t) (method full_url : string).
Variable kwargs : list (string * value).

(** An attempt either ends the loop, with nothing on the trace but its own
    request, or it sleeps and goes round, which it does only before the last
    attempt. *)
Lemma attempt_body_shape (a : Z) (net : network) :
  (exists r,
     ApiClient.attempt_body self method full_url kwargs a net
     = (r, attempt_events self method full_url kwargs, fun k => net (S k))
     /\ r <> Ok Continue)
  \/ (ApiClient.attempt_body self method full_url kwargs a net
      = (Ok Continue,
         attempt_events self method full_url kwargs
         ++ [Slept (ApiClientConfig.retry_delay (ApiClient.config self) * (a + 1))],
         fun k => net (S k))
      /\ a <> ApiClientConfig.retries (ApiClient.config self)).
Proof.
  unfold ApiClient.attempt_body, ApiClient.raise_for_response, attempt_events, bind,
    session_request, print, ret, raise, time_sleep.
  destruct (ApiClientConfig.debug (ApiClient.config self)); cbn -[Z.mul Z.add];
    destruct (net O) as [r|msg]; cbn -[Z.mul Z.add].
  all: try (destruct (500 <=? Response.status_code r); cbn -[Z.mul Z.add]).
  all: try (destruct (a <? ApiClientConfig.retries (ApiClient.config self)) eqn:Hlt;
            cbn -[Z.mul Z.add]).
  all: try (destruct (a =? ApiClientConfig.retries (ApiClient.config self)) eqn:Heq;
            cbn -[Z.mul Z.add]).
  all: try (destruct ((ApiClientConfig.retry_delay (ApiClient.config self) * (a + 1)
                       <? - max_sleep_seconds)
                      || (max_sleep_seconds
                          <? ApiClientConfig.retry_delay (ApiClient.config self) * (a + 1)));
            cbn -[Z.mul Z.add]).
  all: try (destruct (ApiClientConfig.retry_delay (ApiClient.config self) * (a + 1) <? 0);
            cbn -[Z.mul Z.add]).
  all: try (destruct (negb (Response.ok r)); cbn -[Z.mul Z.add]).
  all: try (destruct (Response.json r) as [[]|]; cbn -[Z.mul Z.add]).
  all: try (left; eexists; split; [reflexivity | discriminate]).
  all: right; split; [reflexivity|].
  all: try (apply Z.ltb_lt in Hlt; lia).
  all: apply Z.eqb_neq in Heq; exact Heq.
Qed.

(** The attempts from [a] to [retries]: some [k] of them go round, the next
    one ends the loop, and the loop does not run out. *)
Lemma for_each_shape (n : nat) : forall (a : nat) (net : network),
  Z.of_nat a + Z.of_nat n = ApiClientConfig.retries (ApiClient.config self) ->
  exists (k : nat) (r : res (option ApiResponse.t)) (net' : network),
    (k <= n)%nat
    /\ for_each (List.map Z.of_nat (seq a (S n)))
         (ApiClient.attempt_body self method full_url kwargs) net
       = (r, retry_trace self method full_url kwargs a k
             ++ attempt_events self method full_url kwargs, net')
    /\ r <> Ok None.
Proof.
  induction n as [|n IH]; intros a net Hlast;
    rewrite <- cons_seq, map_cons, for_each_cons; unfold bind at 1;
    destruct (attempt_body_shape (Z.of_nat a) net) as [(r & Hbody & Hr) | [Hbody Hne]];
    rewrite Hbody.
  - exists O. destruct r as [[|x]|e]; [contradiction | |].
    + eexists _, _. split; [lia|]. unfold ret. rewrite app_nil_r.
      split; [reflexivity | discriminate].
    + eexists _, _. split; [lia|]. split; [reflexivity | discriminate].
  - lia.
  - exists O. destruct r as [[|x]|e]; [contradiction | |].
    + eexists _, _. split; [lia|]. unfold ret. rewrite app_nil_r.
      split; [reflexivity | discriminate].
    + eexists _, _. split; [lia|]. split; [reflexivity | discriminate].
  - destruct (IH (S a) (fun k => net (S k))) as (k & r & net' & Hk & Hrest & Hr); [lia|].
    rewrite Hrest. exists (S k), r, net'. split; [lia|]. split; [| exact Hr].
    cbn [retry_trace].
    rewrite <- !app_assoc. reflexivity.
Qed.

End Shape.

(** With [retries >= 0] and an address that resolves, the trace of a call
    is that of [k] attempts that go round and one that ends it. *)
Lemma make_request_shape
    (chk : string -> bool) (self : ApiClient.t) (method url full_url : string)
    (kwargs : list (string * value)) (net : network) :
  Urllib.urljoin chk (ApiClientConfig.base_url (ApiClient.config self)) url = Ok full_url ->
  0 <= ApiClientConfig.retries (ApiClient.config self) ->
  exists k : nat,
    Z.of_nat k <= ApiClientConfig.retries (ApiClient.config self)
    /\ trace (ApiClient._make_request chk self method url kwargs net)
       = retry_trace self method full_url kwargs 0 k
         ++ attempt_events self method full_url kwargs
    /\ outcome (ApiClient._make_request chk self method url kwargs net) <> Ok None.
Proof.
  intros Hurl Hr.
  rewrite (make_request_resolved chk self method url full_url kwargs Hurl).
  unfold range.
  replace (Z.to_nat (ApiClientConfig.retries (ApiClient.config self) + 1))
    with (S (Z.to_nat (ApiClientConfig.retries (ApiClient.config self)))) by lia.
  destruct (for_each_shape self method full_url kwargs
              (Z.to_nat (ApiClientConfig.retries (ApiClient.config self))) O net)
    as (k & r & net' & Hk & Hrun & Hnone); [lia|].
  rewrite Hrun. exists k. unfold trace, outcome. cbn [fst snd].
  split; [lia|]. split; [reflexivity | exact Hnone].
Qed.

Section Reached.

Variables (self : ApiClient.t) (method full_url : string).
Variable kwargs : list (string * value).


End Reached.

(* ===================================================================== *)
(** * Retry and error normalisation *)
(* ===================================================================== *)

Lemma backoff_length (d : Z) (a n : nat) : length (backoff d a n) = n.
Proof. unfold backoff. rewrite length_map, length_seq. reflexivity. Qed.

(** The [k]-th pause, counted from 1, lasts [d * k]. *)
Lemma backoff_lookup (d : Z) (n k : nat) :
  (k < n)%nat -> backoff d 0 n !! k = Some (d * (Z.of_nat k + 1)).
Proof.
  intros Hk. unfold backoff.
  rewrite list_lookup_fmap, lookup_seq_lt by exact Hk. reflexivity.
Qed.


(** C1. The claim is right; the code falls short of it when the last
    response carries a JSON body that is not an object.  A client with
    [retries = 3] whose every attempt is answered with status 503 and the
    body [[]] sends 4 requests and sleeps 1, 2 and 3 in between, as claimed,
    and then raises [AttributeError] from [error_data.get] in place of the
    [ApiError] of the claim. *)
Theorem server_errors_with_array_body_escape_normalisation :
  let run :=
    ApiClient.get any_bracketed_host test_client "/status" VNone
      (fun _ => Received (array_response 503)) in
  ApiClientConfig.retries (ApiClient.config test_client) = 3
  /\ length (requests_of (trace run)) = 4%nat
  /\ sleeps_of (trace run) = [1; 2; 3]
  /\ outcome run = Err ExAttributeError.
Proof. vm_compute. repeat split. Qed.

(** With a readable error body, a first response with a status from 400 to
    499 ends the call at once: one request, no pause, and the [ApiError] is
    built from that response. *)
Lemma client_error_not_retried
    (chk : string -> bool) (self : ApiClient.t) (method url full_url : string)
    (kwargs : list (string * value)) (net : network) (r : Response.t) :
  let cfg := ApiClient.config self in
  let run := ApiClient._make_request chk self method url kwargs net in
  Urllib.urljoin chk (ApiClientConfig.base_url cfg) url = Ok full_url ->
  0 <= ApiClientConfig.retries cfg ->
  net O = Received r ->
  400 <= Response.status_code r < 500 ->
  readable_error_body r = true ->
  outcome run = Err (ExApiError (error_of_response r))
  /\ length (requests_of (trace run)) = 1%nat
  /\ sleeps_of (trace run) = [].
Proof.
  intros cfg run Hurl Hr Hnet Hst Hbody. subst run cfg.
  rewrite (make_request_client_error chk self method url full_url kwargs Hurl O net r);
    [| intros H; inversion H | exact Hr | lia | exact Hnet | lia |].
  - unfold outcome, trace. cbn [fst snd retry_trace app]. rewrite Hbody.
    rewrite requests_of_attempt_events, sleeps_of_attempt_events.
    repeat split.
  - unfold Response.ok. apply negb_false_iff, andb_true_iff. split.
    + apply Z.leb_le. lia.
    + apply Z.ltb_lt. lia.
Qed.

(** C2. The claim is right; the code falls short of it when the body is JSON
    but not an object.  A first response with status 400 and the body [[]]
    is not retried, as claimed: exactly one request, no pause.  But the call
    raises [AttributeError] from [error_data.get], not an [ApiError] with the
    default message and code. *)
Theorem client_error_with_array_body_raises_attribute_error :
  let run :=
    ApiClient.get any_bracketed_host test_client "/error" VNone
      (fun _ => Received (array_response 400)) in
  length (requests_of (trace run)) = 1%nat
  /\ sleeps_of (trace run) = []
  /\ outcome run = Err ExAttributeError.
Proof. vm_compute. repeat split. Qed.

(** C3, as the code has it.  A first response with status 400 and the
    validation error body raises, after exactly one request, an [ApiError]
    with status 400, code [VALIDATION_ERROR], message [Bad Request], and for
    [details] the whole parsed body: the three keys [message], [code] and
    [details], not the value under [details] alone. *)
Theorem validation_error_details_are_whole_body
    (chk : string -> bool) (self : ApiClient.t) (method url full_url : string)
    (kwargs : list (string * value)) (net : network) (r : Response.t) :
  let run := ApiClient._make_request chk self method url kwargs net in
  Urllib.urljoin chk (ApiClientConfig.base_url (ApiClient.config self)) url = Ok full_url ->
  0 <= ApiClientConfig.retries (ApiClient.config self) ->
  net O = Received r ->
  Response.status_code r = 400 ->
  Response.json r = Some validation_body ->
  outcome run
  = Err (ExApiError
           (ApiError.mk (VStr "Bad Request") 400 (VStr "VALIDATION_ERROR") validation_body))
  /\ length (requests_of (trace run)) = 1%nat.
Proof.
  intros run Hurl Hr Hnet Hst Hjson.
  destruct (client_error_not_retried chk self method url full_url kwargs net r
              Hurl Hr Hnet) as (Hout & Hreq & _).
  - lia.
  - unfold readable_error_body. rewrite Hjson. reflexivity.
  - split; [| exact Hreq].
    fold run in Hout. rewrite Hout.
    unfold error_of_response. rewrite Hjson, Hst. reflexivity.
Qed.

Lemma validation_error_details_are_whole_body_witness :
  let net : network := fun _ => Received validation_response in
  let run :=
    ApiClient._make_request any_bracketed_host test_client "GET" "/error"
      [("params", VNone)] net in
  (Urllib.urljoin any_bracketed_host
     (ApiClientConfig.base_url (ApiClient.config test_client)) "/error"
   = Ok "https://api.example.com/error"
   /\ 0 <= ApiClientConfig.retries (ApiClient.config test_client)
   /\ net O = Received validation_response
   /\ Response.status_code validation_response = 400
   /\ Response.json validation_response = Some validation_body)
  /\ outcome run
     = Err (ExApiError
              (ApiError.mk (VStr "Bad Request") 400 (VStr "VALIDATION_ERROR") validation_body))
  /\ length (requests_of (trace run)) = 1%nat.
Proof.
  intros net run.
  assert (H1 : Urllib.urljoin any_bracketed_host
                 (ApiClientConfig.base_url (ApiClient.config test_client)) "/error"
               = Ok "https://api.example.com/error") by (vm_compute; reflexivity).
  assert (H2 : 0 <= ApiClientConfig.retries (ApiClient.config test_client))
    by (vm_compute; discriminate).
  assert (H3 : net O = Received validation_response) by reflexivity.
  assert (H4 : Response.status_code validation_response = 400) by reflexivity.
  assert (H5 : Response.json validation_response = Some validation_body) by reflexivity.
  split; [repeat split; assumption|].
  exact (validation_error_details_are_whole_body any_bracketed_host test_client
           "GET" "/error" "https://api.example.com/error" [("params", VNone)]
           net validation_response H1 H2 H3 H4 H5).
Defined.

(** C3, as the claim has it, fails: on the validation error body the
    [details] of the raised [ApiError] are not [{"field": "email"}]. *)
Lemma validation_error_details_counterexample :
  exists e,
    outcome (ApiClient.get any_bracketed_host test_client "/error" VNone
               (fun _ => Received validation_response))
    = Err (ExApiError e)
    /\ ApiError.status e = 400
    /\ ApiError.code e = VStr "VALIDATION_ERROR"
    /\ ApiError.details e <> VDict [("field", VStr "email")].
Proof.
  eexists. split; [vm_compute; reflexivity|].
  repeat split. cbn. discriminate.
Qed.






(** The first scenario of the test suite: one request, status 200, the
    parsed body as [data]. *)
Example get_success_once :
  let run := ApiClient.get any_bracketed_host test_client "/test" VNone
               (fun _ => Received success_response) in
  outcome run = Ok (Some (ApiResponse.mk success_body 200 json_headers true))
  /\ length (requests_of (trace run)) = 1%nat.
Proof. vm_compute. split; reflexivity. Qed.

(** A body that is not JSON comes back as the text it is. *)
Example get_text_body :
  outcome (ApiClient.get any_bracketed_host test_client "/health" VNone
             (fun _ => Received (text_response 200 "OK")))
  = Ok (Some (ApiResponse.mk (VStr "OK") 200 [("Content-Type", "text/plain")] true)).
Proof. vm_compute. reflexivity. Qed.

(** C6. The claim is right; the code falls short of it.  A first response
    with status 400 and the body [[]] makes the call raise [AttributeError]:
    neither an envelope nor an [ApiError].  The same happens under the
    default configuration after the retries on status 503.  And a client
    whose [retries] is [-1], which the constructor accepts, returns [None]
    without sending anything. *)
Theorem call_can_end_without_envelope_or_api_error :
  outcome (ApiClient.get any_bracketed_host test_client "/error" VNone
             (fun _ => Received (array_response 400)))
  = Err ExAttributeError
  /\ outcome (ApiClient.get any_bracketed_host test_client "/status" VNone
                (fun _ => Received (array_response 503)))
     = Err ExAttributeError
  /\ ApiClient.__init__ ∅ (AsDict negative_fields) = Ok (client_of negative_fields)
  /\ ApiClient.get any_bracketed_host (client_of negative_fields) "/test" VNone
       (fun _ => Received success_response) = (Ok None, [], fun _ => Received success_response).
Proof. vm_compute. repeat split. Qed.

(* ===================================================================== *)
(** * The two ways a call can end *)
(* ===================================================================== *)


Section Ends.

Variables (self : ApiClient.t) (method full_url : string).
Variable kwargs : list (string * value).

Hypothesis delay_nonneg : 0 <= ApiClientConfig.retry_delay (ApiClient.config self).
Hypothesis delay_fits :
  ApiClientConfig.retry_delay (ApiClient.config self)
  * ApiClientConfig.retries (ApiClient.config self) <= max_sleep_seconds.



End Ends.


(* ===================================================================== *)
(** * Configuration, credentials and base address *)
(* ===================================================================== *)


(** The constructor leaves the configuration it was given, or built, as it is. *)
Lemma init_config (dh : CaseInsensitiveDict.t) (arg : config_arg) (self : ApiClient.t) :
  ApiClient.__init__ dh arg = Ok self ->
  match arg with
  | AsConfig c => ApiClient.config self = c
  | AsDict d => ApiClientConfig.init d = Ok (ApiClient.config self)
  end.
Proof.
  unfold ApiClient.__init__. destruct arg as [c|d].
  - intros [= <-]. reflexivity.
  - destruct (ApiClientConfig.init d) as [c|e]; [| discriminate].
    intros [= <-]. reflexivity.
Qed.


Module RequestsFacts.
Import PyStr Urllib.






Section WithCheck.

Variable chk : string -> bool.




End WithCheck.

End RequestsFacts.




(** C7, as the code has it.  For [retries] and [timeout] given as integers,
    in a configuration object or in a mapping, construction applies no
    range check: the client has the [retries] and [timeout] it was given,
    and 3 and 30 where the mapping gives none.  So [retries >= 0] and
    [timeout > 0] hold of a client exactly when they hold of what was
    supplied, and they hold of the defaults.  [set_api_key] and
    [set_base_url] change neither field. *)
Theorem construction_copies_retries_and_timeout
    (dh : CaseInsensitiveDict.t) (arg : config_arg) (self : ApiClient.t) :
  ApiClient.__init__ dh arg = Ok self ->
  ApiClientConfig.retries (ApiClient.config self)
  = match arg with
    | AsConfig c => ApiClientConfig.retries c
    | AsDict d => default 3 (ApiClientConfig.f_retries d)
    end
  /\ ApiClientConfig.timeout (ApiClient.config self)
     = match arg with
       | AsConfig c => ApiClientConfig.timeout c
       | AsDict d => default 30 (ApiClientConfig.f_timeout d)
       end
  /\ (forall key : string,
        ApiClientConfig.retries (ApiClient.config (ApiClient.set_api_key self key))
        = ApiClientConfig.retries (ApiClient.config self)
        /\ ApiClientConfig.timeout (ApiClient.config (ApiClient.set_api_key self key))
           = ApiClientConfig.timeout (ApiClient.config self))
  /\ (forall base : string,
        ApiClientConfig.retries (ApiClient.config (ApiClient.set_base_url self base))
        = ApiClientConfig.retries (ApiClient.config self)
        /\ ApiClientConfig.timeout (ApiClient.config (ApiClient.set_base_url self base))
           = ApiClientConfig.timeout (ApiClient.config self)).
Proof.
  intros Hinit. pose proof (init_config dh arg self Hinit) as Hc.
  assert (Hfields :
            ApiClientConfig.retries (ApiClient.config self)
            = match arg with
              | AsConfig c => ApiClientConfig.retries c
              | AsDict d => default 3 (ApiClientConfig.f_retries d)
              end
            /\ ApiClientConfig.timeout (ApiClient.config self)
               = match arg with
                 | AsConfig c => ApiClientConfig.timeout c
                 | AsDict d => default 30 (ApiClientConfig.f_timeout d)
                 end).
  { destruct arg as [c|d].
    - rewrite Hc. split; reflexivity.
    - unfold ApiClientConfig.init in Hc.
      destruct (ApiClientConfig.f_base_url d) as [b|]; [| discriminate].
      injection Hc as Hc. rewrite <- Hc. split; reflexivity. }
  destruct Hfields as [Hr Ht].
  split; [exact Hr|]. split; [exact Ht|].
  split; intros; split; reflexivity.
Qed.

Lemma construction_copies_retries_and_timeout_witness :
  ApiClient.__init__ ∅ (AsDict test_fields) = Ok test_client
  /\ ApiClientConfig.retries (ApiClient.config test_client) = 3
  /\ ApiClientConfig.timeout (ApiClient.config test_client) = 30.
Proof.
  assert (H : ApiClient.__init__ ∅ (AsDict test_fields) = Ok test_client) by reflexivity.
  split; [exact H|].
  destruct (construction_copies_retries_and_timeout ∅ (AsDict test_fields) test_client H)
    as (Hr & Ht & _).
  split; [exact Hr | exact Ht].
Defined.

(** C7, as the claim has it, fails: the constructor accepts a mapping with
    the integers [retries = -1] and [timeout = 0] and keeps both values. *)
Lemma config_invariant_counterexample :
  exists self : ApiClient.t,
    ApiClient.__init__ ∅ (AsDict negative_fields) = Ok self
    /\ ~ (0 <= ApiClientConfig.retries (ApiClient.config self)
          /\ 0 < ApiClientConfig.timeout (ApiClient.config self)).
Proof.
  eexists. split; [reflexivity|].
  cbn. intros [H _]. apply H. reflexivity.
Qed.

(** C9. After [set_base_url(b)] every request of a call goes to
    [urljoin(b, url)], whatever the base address was before; with a
    non-negative [retries] there is such a request. *)
Theorem requests_resolve_against_new_base_url
    (chk : string -> bool) (self : ApiClient.t) (b method url full_url : string)
    (kwargs : list (string * value)) (net : network) :
  let run :=
    ApiClient._make_request chk (ApiClient.set_base_url self b) method url kwargs net in
  Urllib.urljoin chk b url = Ok full_url ->
  (forall q : Sent.t, In q (requests_of (trace run)) -> Sent.url q = full_url)
  /\ (0 <= ApiClientConfig.retries (ApiClient.config self) -> requests_of (trace run) <> []).
Proof.
  intros run Hurl. subst run.
  destruct (make_request_requests chk (ApiClient.set_base_url self b) method url kwargs
              full_url net Hurl) as (n & Hn & Hpos).
  rewrite Hn. split.
  - intros q Hin. apply repeat_spec in Hin. subst q. reflexivity.
  - intros Hr. specialize (Hpos Hr). destruct n; [lia | discriminate].
Qed.

Lemma requests_resolve_against_new_base_url_witness :
  let run :=
    ApiClient.get any_bracketed_host
      (ApiClient.set_base_url test_client "https://staging.example.com/api/")
      "users" VNone (fun _ => Received success_response) in
  Urllib.urljoin any_bracketed_host "https://staging.example.com/api/" "users"
  = Ok "https://staging.example.com/api/users"
  /\ (forall q : Sent.t, In q (requests_of (trace run)) ->
        Sent.url q = "https://staging.example.com/api/users")
  /\ (0 <= ApiClientConfig.retries (ApiClient.config test_client) ->
      requests_of (trace run) <> []).
Proof.
  intros run.
  assert (H : Urllib.urljoin any_bracketed_host "https://staging.example.com/api/" "users"
              = Ok "https://staging.example.com/api/users") by (vm_compute; reflexivity).
  split; [exact H|].
  exact (requests_resolve_against_new_base_url any_bracketed_host test_client
           "https://staging.example.com/api/" "GET" "users"
           "https://staging.example.com/api/users" [("params", VNone)]
           (fun _ => Received success_response) H).
Defined.

(* ===================================================================== *)
(** * URL resolution *)
(* ===================================================================== *)

Module UrllibFacts.
Import PyStr Urllib.

Lemma in_list_In (x : string) (l : list string) : in_list x l = true -> In x l.
Proof.
  unfold in_list. intros H. apply existsb_exists in H as (y & Hy & Heq).
  apply String.eqb_eq in Heq. subst y. exact Hy.
Qed.

(** The schemes that resolve relative references also have a network location. *)
Lemma uses_relative_uses_netloc (s : string) :
  in_list s uses_relative = true -> in_list s uses_netloc = true.
Proof.
  intros H. apply in_list_In in H. unfold uses_relative in H.
  repeat (destruct H as [<-|H]; [reflexivity|]). destruct H.
Qed.

(** [urlsplit] leaves those schemes as they are when it cleans the default
    scheme. *)
Lemma uses_relative_clean (s : string) :
  in_list s uses_relative = true ->
  remove_unsafe (strip c0_control_or_space s) = s.
Proof.
  intros H. apply in_list_In in H. unfold uses_relative in H.
  repeat (destruct H as [<-|H]; [reflexivity|]). destruct H.
Qed.

Lemma lstrip_rooted (rest : string) :
  lstrip c0_control_or_space (String "/" rest) = String "/" rest.
Proof. reflexivity. Qed.

Lemma remove_unsafe_rooted (rest : string) :
  remove_unsafe (String "/" rest) = String "/" (remove_unsafe rest).
Proof. reflexivity. Qed.

(** Cutting a rooted text at the first [c], for [c] other than the slash,
    leaves a rooted text in front. *)
Lemma split_once_rooted (c : ascii) (s : string) :
  Ascii.eqb "/" c = false ->
  startswith "/" s = true ->
  startswith "/" (if contains c s then split_once c s else (s, EmptyString)).1 = true.
Proof.
  intros Hc Hs. destruct (contains c s); [| exact Hs].
  destruct s as [|d s']; [discriminate|].
  cbn [startswith] in Hs. apply Ascii.eqb_eq in Hs. subst d.
  unfold split_once. cbn [find]. rewrite Hc.
  destruct (find c s') as [j|]; reflexivity.
Qed.

Lemma splitparams_rooted (s : string) :
  startswith "/" s = true -> startswith "/" (_splitparams s).1 = true.
Proof.
  intros Hs. destruct s as [|d s']; [discriminate|].
  cbn [startswith] in Hs. apply Ascii.eqb_eq in Hs. subst d.
  unfold _splitparams. cbn [contains]. rewrite Ascii.eqb_refl.
  unfold find_from.
  destruct (rfind "/" (String "/" s')) as [[|r]|]; simpl.
  - destruct (find ";" s') as [j|]; reflexivity.
  - destruct (find ";" (drop r s')) as [j|]; reflexivity.
  - destruct (find ";" s') as [j|]; reflexivity.
Qed.

Section WithCheck.

Variable chk : string -> bool.

(** A reference that starts with one slash has no scheme and no network
    location of its own: [urlsplit] hands back the default scheme and a
    rooted path. *)
Lemma urlsplit_rooted (rest bs : string) :
  in_list bs uses_relative = true ->
  startswith "/" (remove_unsafe rest) = false ->
  exists path query fragment,
    urlsplit chk (String "/" rest) bs = Ok (bs, EmptyString, path, query, fragment)
    /\ startswith "/" path = true.
Proof.
  intros Hbs Hrest. unfold urlsplit.
  rewrite lstrip_rooted, remove_unsafe_rooted, (uses_relative_clean bs Hbs).
  set (u := remove_unsafe rest) in *.
  assert (Hscheme :
    match find ":" (String "/" u) with
    | Some i =>
        if (0 <? i)%nat
           && match String "/" u with String c _ => is_ascii_alpha c | EmptyString => false end
           && forallb scheme_char (take i (String "/" u))
        then (lower (take i (String "/" u)), drop (S i) (String "/" u))
        else (bs, String "/" u)
    | None => (bs, String "/" u)
    end = (bs, String "/" u)).
  { destruct (find ":" (String "/" u)) as [i|]; [| reflexivity].
    change (is_ascii_alpha "/") with false. rewrite andb_false_r. reflexivity. }
  rewrite Hscheme.
  assert (Hnetloc : String.eqb (take 2 (String "/" u)) "//" = false).
  { destruct u as [|c u']; [reflexivity|].
    cbn [startswith] in Hrest. cbn [take]. cbn. rewrite Hrest. reflexivity. }
  rewrite Hnetloc.
  pose proof (split_once_rooted "#" (String "/" u) eq_refl eq_refl) as Hfrag.
  destruct (if contains "#" (String "/" u) then split_once "#" (String "/" u)
            else (String "/" u, EmptyString)) as [url1 fragment].
  cbn [fst] in Hfrag.
  pose proof (split_once_rooted "?" url1 eq_refl Hfrag) as Hquery.
  destruct (if contains "?" url1 then split_once "?" url1 else (url1, EmptyString))
    as [url2 query].
  cbn [fst] in Hquery.
  exists url2, query, fragment. split; [reflexivity | exact Hquery].
Qed.

Lemma urlparse_rooted (rest bs : string) :
  in_list bs uses_relative = true ->
  startswith "/" (remove_unsafe rest) = false ->
  exists path params query fragment,
    urlparse chk (String "/" rest) bs
    = Ok (bs, EmptyString, path, params, query, fragment)
    /\ startswith "/" path = true.
Proof.
  intros Hbs Hrest.
  destruct (urlsplit_rooted rest bs Hbs Hrest) as (path & query & fragment & Hsplit & Hpath).
  unfold urlparse. rewrite Hsplit.
  pose proof (splitparams_rooted path Hpath) as Hparams.
  destruct (in_list bs uses_params && contains ";" path).
  - destruct (_splitparams path) as [path' params]. cbn [fst] in Hparams.
    exists path', params, query, fragment. split; [reflexivity | exact Hparams].
  - exists path, EmptyString, query, fragment. split; [reflexivity | exact Hpath].
Qed.

End WithCheck.

End UrllibFacts.

Lemma append_assoc (a b c : string) : (a +:+ b) +:+ c = a +:+ (b +:+ c).
Proof.
  induction a as [|ch a IH]; [reflexivity|].
  change (String ch ((a +:+ b) +:+ c) = String ch (a +:+ (b +:+ c))).
  rewrite IH. reflexivity.
Qed.

(** With a scheme and a network location, [urlunparse] writes them first. *)
Lemma urlunparse_prefix (scheme netloc url params query fragment : string) :
  scheme <> EmptyString ->
  netloc <> EmptyString ->
  exists tail,
    Urllib.urlunparse (scheme, netloc, url, params, query, fragment)
    = scheme +:+ "://" +:+ netloc +:+ tail.
Proof.
  intros Hs Hn.
  assert (Hes : PyStr.is_empty scheme = false)
    by (destruct scheme; [contradiction | reflexivity]).
  assert (Hen : PyStr.is_empty netloc = false)
    by (destruct netloc; [contradiction | reflexivity]).
  unfold Urllib.urlunparse, Urllib.urlunsplit.
  rewrite Hes, Hen. cbn [negb orb].
  set (u := if negb (PyStr.is_empty params) then url +:+ ";" +:+ params else url).
  set (v := if negb (PyStr.is_empty u) && negb (String.eqb (PyStr.take 1 u) "/")
            then "/" +:+ u else u).
  destruct (PyStr.is_empty query), (PyStr.is_empty fragment); cbn [negb].
  - exists v. reflexivity.
  - exists (v +:+ "#" +:+ fragment).
    rewrite !append_assoc. reflexivity.
  - exists (v +:+ "?" +:+ query).
    rewrite !append_assoc. reflexivity.
  - exists ((v +:+ "?" +:+ query) +:+ "#" +:+ fragment).
    rewrite !append_assoc. reflexivity.
Qed.

(** C10, as the code has it.  Take a base address whose scheme is one of
    [uses_relative], and a reference that starts with a slash and whose next
    character, once tabs, carriage returns and line feeds are dropped, is
    not a slash.  Then [urljoin] builds the result from the scheme and the
    network location of the base and from the path, parameters, query and
    fragment of the reference, the path with its dot segments resolved:
    nothing of the base's own path, parameters, query or fragment goes into
    it.  With a scheme and a network location the result reads
    [scheme://netloc...]. *)
Theorem urljoin_rooted_reference
    (chk : string -> bool) (base rest bscheme bnetloc bpath bparams bquery bfragment : string) :
  base <> EmptyString ->
  Urllib.urlparse chk base EmptyString
  = Ok (bscheme, bnetloc, bpath, bparams, bquery, bfragment) ->
  Urllib.in_list bscheme Urllib.uses_relative = true ->
  PyStr.startswith "/" (Urllib.remove_unsafe rest) = false ->
  exists path params query fragment,
    Urllib.urlparse chk (String "/" rest) bscheme
    = Ok (bscheme, EmptyString, path, params, query, fragment)
    /\ PyStr.startswith "/" path = true
    /\ Urllib.urljoin chk base (String "/" rest)
       = Ok (Urllib.urlunparse
               (bscheme, bnetloc,
                Urllib.joined_or_root (Urllib.resolve_segments (PyStr.split "/" path)),
                params, query, fragment))
    /\ (bscheme <> EmptyString -> bnetloc <> EmptyString ->
        exists tail,
          Urllib.urljoin chk base (String "/" rest)
          = Ok (bscheme +:+ "://" +:+ bnetloc +:+ tail)).
Proof.
  intros Hbase Hparse Hrel Hrest.
  destruct (UrllibFacts.urlparse_rooted chk rest bscheme Hrel Hrest)
    as (path & params & query & fragment & Hurl & Hpath).
  exists path, params, query, fragment.
  split; [exact Hurl|]. split; [exact Hpath|].
  assert (Hjoin :
    Urllib.urljoin chk base (String "/" rest)
    = Ok (Urllib.urlunparse
            (bscheme, bnetloc,
             Urllib.joined_or_root (Urllib.resolve_segments (PyStr.split "/" path)),
             params, query, fragment))).
  { unfold Urllib.urljoin.
    destruct base as [|bc base]; [contradiction|].
    cbn [PyStr.is_empty]. rewrite Hparse, Hurl.
    rewrite String.eqb_refl, Hrel, (UrllibFacts.uses_relative_uses_netloc _ Hrel).
    destruct path as [|pc path]; [discriminate|].
    cbn [PyStr.startswith] in Hpath. apply Ascii.eqb_eq in Hpath. subst pc.
    reflexivity. }
  split; [exact Hjoin|].
  intros Hs Hn. rewrite Hjoin.
  destruct (urlunparse_prefix bscheme bnetloc
              (Urllib.joined_or_root (Urllib.resolve_segments (PyStr.split "/" path)))
              params query fragment Hs Hn) as [tail Htail].
  exists tail. rewrite Htail. reflexivity.
Qed.

Lemma urljoin_rooted_reference_witness :
  ("https://host/v1" <> EmptyString
   /\ Urllib.urlparse any_bracketed_host "https://host/v1" EmptyString
      = Ok ("https", "host", "/v1", EmptyString, EmptyString, EmptyString)
   /\ Urllib.in_list "https" Urllib.uses_relative = true
   /\ PyStr.startswith "/" (Urllib.remove_unsafe "users") = false)
  /\ exists path params query fragment,
       Urllib.urlparse any_bracketed_host "/users" "https"
       = Ok ("https", EmptyString, path, params, query, fragment)
       /\ PyStr.startswith "/" path = true
       /\ Urllib.urljoin any_bracketed_host "https://host/v1" "/users"
          = Ok (Urllib.urlunparse
                  ("https", "host",
                   Urllib.joined_or_root (Urllib.resolve_segments (PyStr.split "/" path)),
                   params, query, fragment))
       /\ ("https" <> EmptyString -> "host" <> EmptyString ->
           exists tail,
             Urllib.urljoin any_bracketed_host "https://host/v1" "/users"
             = Ok ("https" +:+ "://" +:+ "host" +:+ tail)).
Proof.
  assert (H1 : "https://host/v1" <> EmptyString) by discriminate.
  assert (H2 : Urllib.urlparse any_bracketed_host "https://host/v1" EmptyString
               = Ok ("https", "host", "/v1", EmptyString, EmptyString, EmptyString))
    by (vm_compute; reflexivity).
  assert (H3 : Urllib.in_list "https" Urllib.uses_relative = true) by reflexivity.
  assert (H4 : PyStr.startswith "/" (Urllib.remove_unsafe "users") = false) by reflexivity.
  split; [repeat split; assumption|].
  exact (urljoin_rooted_reference any_bracketed_host "https://host/v1" "users"
           "https" "host" "/v1" EmptyString EmptyString EmptyString H1 H2 H3 H4).
Defined.

(** A rooted reference drops the path of the base address. *)
Example urljoin_drops_base_path :
  Urllib.urljoin any_bracketed_host "https://host/v1" "/users" = Ok "https://host/users".
Proof. vm_compute. reflexivity. Qed.

(** C10, as the claim has it, fails for a reference that starts with two
    slashes: the base address has a path and the reference begins with a
    slash, yet the result takes its network location from the reference and
    keeps only the scheme of the base. *)
Lemma network_path_reference_counterexample :
  Urllib.urljoin any_bracketed_host "https://host/v1" "//other/users"
  = Ok "https://other/users"
  /\ ~ (forall base url bscheme bnetloc bpath bparams bquery bfragment resolved,
          Urllib.urlparse any_bracketed_host base EmptyString
          = Ok (bscheme, bnetloc, bpath, bparams, bquery, bfragment) ->
          bpath <> EmptyString ->
          PyStr.startswith "/" url = true ->
          Urllib.urljoin any_bracketed_host base url = Ok resolved ->
          exists tail, resolved = bscheme +:+ "://" +:+ bnetloc +:+ tail).
Proof.
  split; [vm_compute; reflexivity|].
  intros H.
  destruct (H "https://host/v1" "//other/users" "https" "host" "/v1"
              EmptyString EmptyString EmptyString "https://other/users")
    as [tail Htail].
  - vm_compute. reflexivity.
  - discriminate.
  - reflexivity.
  - vm_compute. reflexivity.
  - cbn in Htail. discriminate Htail.
Qed.


(** X1. With [retries >= 0] and a request address that resolves, whatever
    the network answers and whatever the rest of the configuration, a call
    is [k] attempts that sleep and go round followed by one attempt that ends
    it, for some [k <= retries]: it sends [k + 1] requests, never more than
    [retries + 1], it pauses [retry_delay * 1, ..., retry_delay * k] between
    them and never after the last, and it does not return [None]. *)
Theorem call_is_retries_then_one_final_attempt
    (chk : string -> bool) (self : ApiClient.t) (method url full_url : string)
    (kwargs : list (string * value)) (net : network) :
  let run := ApiClient._make_request chk self method url kwargs net in
  Urllib.urljoin chk (ApiClientConfig.base_url (ApiClient.config self)) url = Ok full_url ->
  0 <= ApiClientConfig.retries (ApiClient.config self) ->
  exists k : nat,
    Z.of_nat k <= ApiClientConfig.retries (ApiClient.config self)
    /\ trace run
       = retry_trace self method full_url kwargs 0 k
         ++ attempt_events self method full_url kwargs
    /\ length (requests_of (trace run)) = S k
    /\ sleeps_of (trace run)
       = backoff (ApiClientConfig.retry_delay (ApiClient.config self)) 0 k
    /\ outcome run <> Ok None.
Proof.
  intros run Hurl Hr. subst run.
  destruct (make_request_shape chk self method url full_url kwargs net Hurl Hr)
    as (k & Hk & Htrace & Hnone).
  exists k. rewrite Htrace.
  rewrite requests_of_app, sleeps_of_app, requests_of_retry_trace,
    sleeps_of_retry_trace, requests_of_attempt_events, sleeps_of_attempt_events,
    length_app, repeat_length, app_nil_r.
  split; [exact Hk|]. split; [reflexivity|]. split; [cbn [length]; lia|].
  split; [reflexivity | exact Hnone].
Qed.

Lemma call_is_retries_then_one_final_attempt_witness :
  let net := first_then (RequestException "Connection reset")
               (first_then (Received (text_response 502 "Bad Gateway"))
                  (always (Received (array_response 404)))) in
  let run :=
    ApiClient._make_request any_bracketed_host test_client "GET" "/test"
      [("params", VNone)] net in
  (Urllib.urljoin any_bracketed_host
     (ApiClientConfig.base_url (ApiClient.config test_client)) "/test"
   = Ok "https://api.example.com/test"
   /\ 0 <= ApiClientConfig.retries (ApiClient.config test_client))
  /\ exists k : nat,
       Z.of_nat k <= ApiClientConfig.retries (ApiClient.config test_client)
       /\ trace run
          = retry_trace test_client "GET" "https://api.example.com/test"
              [("params", VNone)] 0 k
            ++ attempt_events test_client "GET" "https://api.example.com/test"
                 [("params", VNone)]
       /\ length (requests_of (trace run)) = S k
       /\ sleeps_of (trace run)
          = backoff (ApiClientConfig.retry_delay (ApiClient.config test_client)) 0 k
       /\ outcome run <> Ok None.
Proof.
  intros net run.
  assert (H1 : Urllib.urljoin any_bracketed_host
                 (ApiClientConfig.base_url (ApiClient.config test_client)) "/test"
               = Ok "https://api.example.com/test") by (vm_compute; reflexivity).
  assert (H2 : 0 <= ApiClientConfig.retries (ApiClient.config test_client))
    by (vm_compute; discriminate).
  split; [split; assumption|].
  exact (call_is_retries_then_one_final_attempt any_bracketed_host test_client
           "GET" "/test" "https://api.example.com/test" [("params", VNone)] net H1 H2).
Defined.

(** X2. Whatever the configuration and the network, a call makes at most
    [retries + 1] calls of [session.request], none when that number is not
    positive, and all of them are the same: one method, one address, one set
    of keyword arguments, and the session holding the same headers each
    time. *)
Theorem call_sends_bounded_identical_requests
    (chk : string -> bool) (self : ApiClient.t) (method url : string)
    (kwargs : list (string * value)) (net : network) :
  let sent := requests_of (trace (ApiClient._make_request chk self method url kwargs net)) in
  (length sent <= Z.to_nat (ApiClientConfig.retries (ApiClient.config self) + 1))%nat
  /\ forall q1 q2, In q1 sent -> In q2 sent -> q1 = q2.
Proof.
  intros sent. subst sent.
  destruct (Urllib.urljoin chk (ApiClientConfig.base_url (ApiClient.config self)) url)
    as [full_url|e] eqn:Hurl.
  - rewrite (make_request_resolved chk self method url full_url kwargs Hurl).
    destruct (for_each_requests self method full_url kwargs
                (range (ApiClientConfig.retries (ApiClient.config self) + 1)) net)
      as (n & Hn & Hle & _).
    rewrite Hn, repeat_length. split.
    + unfold range in Hle. rewrite length_map, length_seq in Hle. exact Hle.
    + intros q1 q2 H1 H2. apply repeat_spec in H1, H2. congruence.
  - rewrite (make_request_unresolved chk self method url kwargs e net Hurl).
    split; [cbn; lia | intros q1 q2 []].
Qed.

(** X3. With a negative [retries] the loop has nothing to run over: the
    call sends nothing, sleeps for nothing, and returns [None], whatever
    the network would have answered. *)
Theorem negative_retries_return_none
    (chk : string -> bool) (self : ApiClient.t) (method url full_url : string)
    (kwargs : list (string * value)) (net : network) :
  Urllib.urljoin chk (ApiClientConfig.base_url (ApiClient.config self)) url = Ok full_url ->
  ApiClientConfig.retries (ApiClient.config self) < 0 ->
  ApiClient._make_request chk self method url kwargs net = (Ok None, [], net).
Proof.
  intros Hurl Hr.
  rewrite (make_request_resolved chk self method url full_url kwargs Hurl).
  rewrite range_nonpositive by lia. reflexivity.
Qed.

Lemma negative_retries_return_none_witness :
  let self := client_with (-2) 1 true in
  (Urllib.urljoin any_bracketed_host
     (ApiClientConfig.base_url (ApiClient.config self)) "/test"
   = Ok "https://api.example.com/test"
   /\ ApiClientConfig.retries (ApiClient.config self) < 0)
  /\ ApiClient._make_request any_bracketed_host self "GET" "/test" [("params", VNone)]
       (always (Received success_response))
     = (Ok None, [], always (Received success_response)).
Proof.
  intros self.
  assert (H1 : Urllib.urljoin any_bracketed_host
                 (ApiClientConfig.base_url (ApiClient.config self)) "/test"
               = Ok "https://api.example.com/test") by (vm_compute; reflexivity).
  assert (H2 : ApiClientConfig.retries (ApiClient.config self) < 0)
    by (vm_compute; reflexivity).
  split; [split; assumption|].
  exact (negative_retries_return_none any_bracketed_host self "GET" "/test"
           "https://api.example.com/test" [("params", VNone)]
           (always (Received success_response)) H1 H2).
Defined.

(** X4. A first pause that [time.sleep] refuses ends the call.  With
    [retries > 0] and a [retry_delay] that is negative or above
    [max_sleep_seconds], the first answer that would be retried makes
    [time.sleep] raise: [OverflowError] when [retry_delay] is outside
    [-max_sleep_seconds .. max_sleep_seconds], [ValueError] when it is
    negative and within.  The exception leaves [_make_request] as it is,
    after one request and no pause. *)
Theorem refused_pause_ends_call
    (chk : string -> bool) (self : ApiClient.t) (method url full_url : string)
    (kwargs : list (string * value)) (net : network) :
  let run := ApiClient._make_request chk self method url kwargs net in
  let retry_delay := ApiClientConfig.retry_delay (ApiClient.config self) in
  Urllib.urljoin chk (ApiClientConfig.base_url (ApiClient.config self)) url = Ok full_url ->
  0 < ApiClientConfig.retries (ApiClient.config self) ->
  retry_delay < 0 \/ max_sleep_seconds < retry_delay ->
  retried (net O) = true ->
  outcome run
  = Err (if (retry_delay <? - max_sleep_seconds) || (max_sleep_seconds <? retry_delay)
         then ExOverflowError else ExValueError)
  /\ length (requests_of (trace run)) = 1%nat
  /\ sleeps_of (trace run) = [].
Proof.
  intros run retry_delay Hurl Hr Hd Hnet. subst run.
  rewrite (make_request_at chk self method url full_url kwargs Hurl O net);
    [| intros H; inversion H | cbn; lia | intros k H; inversion H].
  cbn [shift retry_trace app].
  assert (Hbody :
    ApiClient.attempt_body self method full_url kwargs (Z.of_nat 0) net
    = (Err (if (retry_delay <? - max_sleep_seconds) || (max_sleep_seconds <? retry_delay)
            then ExOverflowError else ExValueError),
       attempt_events self method full_url kwargs, fun k => net (S k))).
  { unfold ApiClient.attempt_body, attempt_events, bind, session_request, print, ret,
      time_sleep.
    replace (ApiClientConfig.retry_delay (ApiClient.config self) * (Z.of_nat 0 + 1))
      with retry_delay by (subst retry_delay; cbn [Z.of_nat]; lia).
    replace (Z.of_nat 0 <? ApiClientConfig.retries (ApiClient.config self)) with true
      by (symmetry; apply Z.ltb_lt; cbn; lia).
    replace (Z.of_nat 0 =? ApiClientConfig.retries (ApiClient.config self)) with false
      by (symmetry; apply Z.eqb_neq; cbn; lia).
    assert (Hneg : (retry_delay <? - max_sleep_seconds) || (max_sleep_seconds <? retry_delay)
                   = false -> (retry_delay <? 0) = true).
    { intros Hno. apply orb_false_iff in Hno as [_ Hno]. apply Z.ltb_ge in Hno.
      apply Z.ltb_lt. lia. }
    destruct ((retry_delay <? - max_sleep_seconds) || (max_sleep_seconds <? retry_delay));
      [| rewrite (Hneg eq_refl)];
      destruct (ApiClientConfig.debug (ApiClient.config self));
      cbn [fst snd app]; destruct (net O) as [r|msg]; cbn [retried] in Hnet;
      cbn [fst snd app]; rewrite ?Hnet; reflexivity. }
  rewrite Hbody. unfold outcome, trace. cbn [fst snd].
  rewrite requests_of_attempt_events, sleeps_of_attempt_events. repeat split.
Qed.

Lemma refused_pause_ends_call_witness :
  let small := client_with 3 (-1) false in
  let large := client_with 3 10000000000 false in
  let net := always (RequestException "Connection refused") in
  let run self := ApiClient._make_request any_bracketed_host self "GET" "/test"
                    [("params", VNone)] net in
  ((Urllib.urljoin any_bracketed_host
      (ApiClientConfig.base_url (ApiClient.config small)) "/test"
    = Ok "https://api.example.com/test"
    /\ 0 < ApiClientConfig.retries (ApiClient.config small)
    /\ (ApiClientConfig.retry_delay (ApiClient.config small) < 0
        \/ max_sleep_seconds < ApiClientConfig.retry_delay (ApiClient.config small))
    /\ retried (net O) = true)
   /\ outcome (run small) = Err ExValueError
   /\ length (requests_of (trace (run small))) = 1%nat
   /\ sleeps_of (trace (run small)) = [])
  /\ ((Urllib.urljoin any_bracketed_host
         (ApiClientConfig.base_url (ApiClient.config large)) "/test"
       = Ok "https://api.example.com/test"
       /\ 0 < ApiClientConfig.retries (ApiClient.config large)
       /\ (ApiClientConfig.retry_delay (ApiClient.config large) < 0
           \/ max_sleep_seconds < ApiClientConfig.retry_delay (ApiClient.config large))
       /\ retried (net O) = true)
      /\ outcome (run large) = Err ExOverflowError
      /\ length (requests_of (trace (run large))) = 1%nat
      /\ sleeps_of (trace (run large)) = []).
Proof.
  intros small large net run.
  assert (H1 : Urllib.urljoin any_bracketed_host
                 (ApiClientConfig.base_url (ApiClient.config small)) "/test"
               = Ok "https://api.example.com/test") by (vm_compute; reflexivity).
  assert (H1' : Urllib.urljoin any_bracketed_host
                  (ApiClientConfig.base_url (ApiClient.config large)) "/test"
                = Ok "https://api.example.com/test") by (vm_compute; reflexivity).
  assert (H2 : 0 < ApiClientConfig.retries (ApiClient.config small)) by reflexivity.
  assert (H2' : 0 < ApiClientConfig.retries (ApiClient.config large)) by reflexivity.
  assert (H3 : ApiClientConfig.retry_delay (ApiClient.config small) < 0
               \/ max_sleep_seconds < ApiClientConfig.retry_delay (ApiClient.config small))
    by (left; reflexivity).
  assert (H3' : ApiClientConfig.retry_delay (ApiClient.config large) < 0
                \/ max_sleep_seconds < ApiClientConfig.retry_delay (ApiClient.config large))
    by (right; reflexivity).
  assert (H4 : retried (net O) = true) by reflexivity.
  split.
  - split; [repeat apply conj; assumption|].
    exact (refused_pause_ends_call any_bracketed_host small "GET" "/test"
             "https://api.example.com/test" [("params", VNone)] net H1 H2 H3 H4).
  - split; [repeat apply conj; assumption|].
    exact (refused_pause_ends_call any_bracketed_host large "GET" "/test"
             "https://api.example.com/test" [("params", VNone)] net H1' H2' H3' H4).
Defined.

(* ===================================================================== *)
(** * The debug flag *)
(* ===================================================================== *)

Lemma prints_of_app (t1 t2 : list event) :
  prints_of (t1 ++ t2) = prints_of t1 ++ prints_of t2.
Proof.
  induction t1 as [|e t1 IH]; [reflexivity|].
  destruct e; simpl; rewrite IH; reflexivity.
Qed.

Lemma without_prints_app (t1 t2 : list event) :
  without_prints (t1 ++ t2) = without_prints t1 ++ without_prints t2.
Proof.
  induction t1 as [|e t1 IH]; [reflexivity|].
  destruct e; simpl; rewrite IH; reflexivity.
Qed.

Section Debug.

Variables (self : ApiClient.t) (method full_url : string).
Variable kwargs : list (string * value).

(** With [debug] set an attempt does what it does without, after printing
    its line. *)
Lemma attempt_body_debug (a : Z) (net : network) :
  ApiClient.attempt_body (with_debug self true) method full_url kwargs a net
  = match ApiClient.attempt_body (with_debug self false) method full_url kwargs a net with
    | (r, t, net') => (r, Printed (debug_line method full_url) :: t, net')
    end.
Proof.
  unfold ApiClient.attempt_body, ApiClient.raise_for_response, with_debug, debug_line,
    bind, session_request, print, ret, raise, time_sleep.
  cbn -[Z.mul Z.add].
  destruct (net O) as [r|msg]; cbn -[Z.mul Z.add];
    repeat match goal with
    | |- context [if ?b then _ else _] => destruct b; cbn -[Z.mul Z.add]
    | |- context [match Response.json ?r with _ => _ end] =>
        destruct (Response.json r) as [[]|]; cbn -[Z.mul Z.add]
    end; reflexivity.
Qed.

Lemma for_each_debug (items : list Z) : forall net : network,
  let loud := for_each items
                (ApiClient.attempt_body (with_debug self true) method full_url kwargs) net in
  let quiet := for_each items
                 (ApiClient.attempt_body (with_debug self false) method full_url kwargs) net in
  outcome loud = outcome quiet
  /\ without_prints (trace loud) = trace quiet
  /\ prints_of (trace quiet) = []
  /\ prints_of (trace loud)
     = repeat (debug_line method full_url) (length (requests_of (trace quiet))).
Proof.
  assert (Hev : attempt_events (with_debug self false) method full_url kwargs
                = [Requested (Sent.mk method full_url
                                (Session.headers (ApiClient.session self)) kwargs)])
    by reflexivity.
  induction items as [|i rest IH]; intros net; cbn zeta.
  - repeat split.
  - rewrite !for_each_cons. unfold bind. rewrite attempt_body_debug.
    destruct (attempt_body_shape (with_debug self false) method full_url kwargs i net)
      as [(r & Hbody & Hr) | [Hbody _]]; rewrite Hbody, Hev.
    + destruct r as [[|x]|e]; [contradiction | |]; repeat split.
    + specialize (IH (fun k => net (S k))). cbn zeta in IH.
      destruct IH as (Ho & Hw & Hp & Hl).
      destruct (for_each rest
                  (ApiClient.attempt_body (with_debug self true) method full_url kwargs)
                  (fun k => net (S k))) as [[r1 t1] n1].
      destruct (for_each rest
                  (ApiClient.attempt_body (with_debug self false) method full_url kwargs)
                  (fun k => net (S k))) as [[r0 t0] n0].
      unfold outcome, trace in *. cbn [fst snd] in *.
      cbn [app without_prints prints_of requests_of length].
      rewrite Hw, Hp, Hl. repeat split; assumption.
Qed.

End Debug.

(** X5. The debug flag changes what is printed and nothing else.  A call
    with [debug] set ends as the same call without it, sends the same
    requests and sleeps the same pauses in the same order; it prints one
    line per request, [[API Client] METHOD address] with the method in upper
    case and the resolved address, and the call without [debug] prints
    nothing. *)
Theorem debug_only_adds_one_line_per_request
    (chk : string -> bool) (self : ApiClient.t) (method url : string)
    (kwargs : list (string * value)) (net : network) :
  let loud := ApiClient._make_request chk (with_debug self true) method url kwargs net in
  let quiet := ApiClient._make_request chk (with_debug self false) method url kwargs net in
  outcome loud = outcome quiet
  /\ without_prints (trace loud) = trace quiet
  /\ prints_of (trace quiet) = []
  /\ length (prints_of (trace loud)) = length (requests_of (trace quiet))
  /\ forall line, In line (prints_of (trace loud)) ->
       exists full_url,
         Urllib.urljoin chk (ApiClientConfig.base_url (ApiClient.config self)) url
         = Ok full_url
         /\ line = "[API Client] " +:+ PyStr.upper method +:+ " " +:+ full_url.
Proof.
  intros loud quiet. subst loud quiet.
  destruct (Urllib.urljoin chk (ApiClientConfig.base_url (ApiClient.config self)) url)
    as [full_url|e] eqn:Hurl.
  - rewrite (make_request_resolved chk (with_debug self true) method url full_url kwargs Hurl),
      (make_request_resolved chk (with_debug self false) method url full_url kwargs Hurl).
    change (ApiClientConfig.retries (ApiClient.config (with_debug self true)))
      with (ApiClientConfig.retries (ApiClient.config self)).
    change (ApiClientConfig.retries (ApiClient.config (with_debug self false)))
      with (ApiClientConfig.retries (ApiClient.config self)).
    destruct (for_each_debug self method full_url kwargs
                (range (ApiClientConfig.retries (ApiClient.config self) + 1)) net)
      as (Ho & Hw & Hp & Hl).
    split; [exact Ho|]. split; [exact Hw|]. split; [exact Hp|].
    rewrite Hl, repeat_length. split; [reflexivity|].
    intros line Hin. exists full_url.
    apply repeat_spec in Hin. split; [reflexivity | exact Hin].
  - rewrite (make_request_unresolved chk (with_debug self true) method url kwargs e net Hurl),
      (make_request_unresolved chk (with_debug self false) method url kwargs e net Hurl).
    repeat split. intros line [].
Qed.

(* ===================================================================== *)
(** * Error responses *)
(* ===================================================================== *)
















(* ===================================================================== *)
(** * Construction and the session headers *)
(* ===================================================================== *)

(** What the constructor builds, for the configuration [c] it ends up with. *)
Lemma init_shape (dh : CaseInsensitiveDict.t) (arg : config_arg) (self : ApiClient.t) :
  ApiClient.__init__ dh arg = Ok self ->
  self
  = {| ApiClient.config := ApiClient.config self;
       ApiClient.session :=
         {| Session.timeout := ApiClientConfig.timeout (ApiClient.config self);
            Session.headers :=
              CaseInsensitiveDict.update
                (if truthy (ApiClientConfig.api_key (ApiClient.config self))
                 then [("Content-Type", "application/json");
                       ("Authorization",
                        "Bearer " +:+ default EmptyString
                                        (ApiClientConfig.api_key (ApiClient.config self)))]
                 else [("Content-Type", "application/json")]) dh |} |}.
Proof.
  unfold ApiClient.__init__. intros Hinit.
  destruct (match arg with
            | AsConfig c => Ok c
            | AsDict d => ApiClientConfig.init d
            end) as [c|e]; [| discriminate].
  injection Hinit as <-. cbn [ApiClient.config].
  destruct (truthy (ApiClientConfig.api_key c)); reflexivity.
Qed.

(** The requests of a call carry the headers of the session. *)
Lemma requests_carry_session_headers
    (chk : string -> bool) (self : ApiClient.t) (method url : string)
    (kwargs : list (string * value)) (net : network) (q : Sent.t) :
  In q (requests_of (trace (ApiClient._make_request chk self method url kwargs net))) ->
  Sent.method q = method
  /\ Urllib.urljoin chk (ApiClientConfig.base_url (ApiClient.config self)) url
     = Ok (Sent.url q)
  /\ Sent.headers q = Session.headers (ApiClient.session self)
  /\ Sent.kwargs q = kwargs.
Proof.
  intros Hin.
  destruct (Urllib.urljoin chk (ApiClientConfig.base_url (ApiClient.config self)) url)
    as [full_url|e] eqn:Hurl.
  - destruct (make_request_requests chk self method url kwargs full_url net Hurl)
      as (n & Hn & _).
    rewrite Hn in Hin. apply repeat_spec in Hin. subst q. repeat split.
  - rewrite (make_request_unresolved chk self method url kwargs e net Hurl) in Hin.
    destruct Hin.
Qed.

(** X12. Every request of a client that the constructor built carries
    [Content-Type: application/json], with or without a credential, also
    after the credential was replaced, and whatever headers the session
    started with. *)
Theorem content_type_on_every_request
    (dh : CaseInsensitiveDict.t) (chk : string -> bool) (arg : config_arg)
    (self : ApiClient.t) (rotated : option string) (method url : string)
    (kwargs : list (string * value)) (net : network) (q : Sent.t) :
  let current :=
    match rotated with
    | Some key => ApiClient.set_api_key self key
    | None => self
    end in
  ApiClient.__init__ dh arg = Ok self ->
  In q (requests_of (trace (ApiClient._make_request chk current method url kwargs net))) ->
  CaseInsensitiveDict.getitem "Content-Type" (Sent.headers q) = Some "application/json".
Proof.
  intros current Hinit Hin.
  destruct (requests_carry_session_headers chk current method url kwargs net q Hin)
    as (_ & _ & Hq & _).
  rewrite Hq. subst current. rewrite (init_shape dh arg self Hinit).
  unfold ApiClient.set_api_key.
  destruct rotated as [key|];
    destruct (truthy (ApiClientConfig.api_key (ApiClient.config self)));
    cbn [ApiClient.session Session.headers];
    unfold CaseInsensitiveDict.getitem, CaseInsensitiveDict.update,
      CaseInsensitiveDict.setitem;
    cbn [fold_left fst snd];
    change (PyStr.lower "Content-Type") with "content-type";
    change (PyStr.lower "Authorization") with "authorization";
    repeat (rewrite lookup_insert_ne by discriminate);
    rewrite lookup_insert_eq; reflexivity.
Qed.

Lemma content_type_on_every_request_witness :
  let q := Sent.mk "PUT" "https://api.example.com/users/7"
             (Session.headers
                (ApiClient.session (ApiClient.set_api_key test_client "rotated-key")))
             [("json", VDict [("name", VStr "John Smith")])] in
  (ApiClient.__init__ ∅ (AsDict test_fields) = Ok test_client
   /\ In q (requests_of (trace (ApiClient._make_request any_bracketed_host
              (ApiClient.set_api_key test_client "rotated-key") "PUT" "/users/7"
              [("json", VDict [("name", VStr "John Smith")])]
              (always (Received success_response))))))
  /\ CaseInsensitiveDict.getitem "Content-Type" (Sent.headers q) = Some "application/json".
Proof.
  intros q.
  assert (H1 : ApiClient.__init__ ∅ (AsDict test_fields) = Ok test_client) by reflexivity.
  assert (H2 : In q (requests_of (trace (ApiClient._make_request any_bracketed_host
              (ApiClient.set_api_key test_client "rotated-key") "PUT" "/users/7"
              [("json", VDict [("name", VStr "John Smith")])]
              (always (Received success_response))))))
    by (left; reflexivity).
  split; [split; assumption|].
  exact (content_type_on_every_request ∅ any_bracketed_host (AsDict test_fields)
           test_client (Some "rotated-key") "PUT" "/users/7"
           [("json", VDict [("name", VStr "John Smith")])]
           (always (Received success_response)) q H1 H2).
Defined.



(* ===================================================================== *)
(** * The two mutators *)
(* ===================================================================== *)

(** X15. The mutators compose as assignments do: of two [set_api_key] in a
    row only the second shows, likewise of two [set_base_url], and a
    [set_api_key] and a [set_base_url] can be done in either order. *)
Theorem mutators_compose (self : ApiClient.t) (key1 key2 base1 base2 : string) :
  ApiClient.set_api_key (ApiClient.set_api_key self key1) key2
  = ApiClient.set_api_key self key2
  /\ ApiClient.set_base_url (ApiClient.set_base_url self base1) base2
     = ApiClient.set_base_url self base2
  /\ ApiClient.set_api_key (ApiClient.set_base_url self base1) key1
     = ApiClient.set_base_url (ApiClient.set_api_key self key1) base1.
Proof.
  split; [| split; reflexivity].
  unfold ApiClient.set_api_key, CaseInsensitiveDict.setitem.
  cbn [ApiClient.config ApiClient.session Session.headers Session.timeout
       ApiClientConfig.base_url ApiClientConfig.api_key ApiClientConfig.timeout
       ApiClientConfig.retries ApiClientConfig.retry_delay ApiClientConfig.debug].
  rewrite insert_insert_eq. reflexivity.
Qed.

(** X16. Each mutator leaves the other's field alone.  After
    [set_base_url] every call of [session.request] finds in the session the
    headers it had before, the credential among them; after [set_api_key]
    the calls go to the address they went to before; and the retry settings
    are the same after either. *)
Theorem mutators_are_independent
    (chk : string -> bool) (self : ApiClient.t) (base key method url : string)
    (kwargs : list (string * value)) (net : network) :
  (forall q,
     In q (requests_of (trace (ApiClient._make_request chk
             (ApiClient.set_base_url self base) method url kwargs net))) ->
     Sent.headers q = Session.headers (ApiClient.session self))
  /\ (forall q,
        In q (requests_of (trace (ApiClient._make_request chk
                (ApiClient.set_api_key self key) method url kwargs net))) ->
        Urllib.urljoin chk (ApiClientConfig.base_url (ApiClient.config self)) url
        = Ok (Sent.url q))
  /\ ApiClientConfig.retry_delay (ApiClient.config (ApiClient.set_base_url self base))
     = ApiClientConfig.retry_delay (ApiClient.config self)
  /\ ApiClientConfig.retry_delay (ApiClient.config (ApiClient.set_api_key self key))
     = ApiClientConfig.retry_delay (ApiClient.config self)
  /\ ApiClientConfig.debug (ApiClient.config (ApiClient.set_base_url self base))
     = ApiClientConfig.debug (ApiClient.config self)
  /\ ApiClientConfig.debug (ApiClient.config (ApiClient.set_api_key self key))
     = ApiClientConfig.debug (ApiClient.config self).
Proof.
  split; [| split; [| repeat split]].
  - intros q Hin.
    destruct (requests_carry_session_headers chk _ method url kwargs net q Hin)
      as (_ & _ & Hq & _).
    exact Hq.
  - intros q Hin.
    destruct (requests_carry_session_headers chk _ method url kwargs net q Hin)
      as (_ & Hu & _ & _).
    exact Hu.
Qed.

(* ===================================================================== *)
(** * The verbs *)
(* ===================================================================== *)

Lemma optional_kwarg (key : string) (d : value) :
  let l := match d with VNone => [] | _ => [(key, d)] end in
  (forall v, In (key, v) l <-> v = d /\ d <> VNone)
  /\ (forall k v, In (k, v) l -> k = key).
Proof.
  destruct d; cbn; (split; [intros v; split | intros k v]).
  all: first
    [ solve [intros []]
    | solve [intros [_ H]; exfalso; apply H; reflexivity]
    | solve [intros [H|[]]; injection H as <-; split; [reflexivity | discriminate]]
    | solve [intros [-> _]; left; reflexivity]
    | solve [intros [H|[]]; injection H as Hk _; symmetry; exact Hk] ].
Qed.

Lemma body_kwargs_forwards (data json_data : value) :
  forwards_bodies data json_data (ApiClient.body_kwargs data json_data).
Proof.
  unfold forwards_bodies, ApiClient.body_kwargs.
  destruct (optional_kwarg "data" data) as [Hd Hdk].
  destruct (optional_kwarg "json" json_data) as [Hj Hjk].
  cbn zeta in *.
  split; [| split].
  - intros v. rewrite in_app_iff. split.
    + intros [H|H]; [apply Hd; exact H | apply Hjk in H; discriminate H].
    + intros H. left. apply Hd. exact H.
  - intros v. rewrite in_app_iff. split.
    + intros [H|H]; [apply Hdk in H; discriminate H | apply Hj; exact H].
    + intros H. right. apply Hj. exact H.
  - intros k v H. apply in_app_iff in H as [H|H].
    + left. exact (Hdk k v H).
    + right. exact (Hjk k v H).
Qed.


(* ===================================================================== *)
(** * Where a request goes *)
(* ===================================================================== *)

(** X18. A request for the empty path goes to the base address exactly as
    it is configured: no part of it is parsed, normalised or dropped. *)
Theorem empty_path_goes_to_base_url
    (chk : string -> bool) (self : ApiClient.t) (method : string)
    (kwargs : list (string * value)) (net : network) (q : Sent.t) :
  ApiClientConfig.base_url (ApiClient.config self) <> EmptyString ->
  In q (requests_of (trace (ApiClient._make_request chk self method EmptyString kwargs net))) ->
  Sent.url q = ApiClientConfig.base_url (ApiClient.config self).
Proof.
  intros Hbase Hin.
  destruct (requests_carry_session_headers chk self method EmptyString kwargs net q Hin)
    as (_ & Hurl & _ & _).
  unfold Urllib.urljoin in Hurl.
  destruct (ApiClientConfig.base_url (ApiClient.config self)) as [|c base];
    [contradiction|].
  cbn [PyStr.is_empty] in Hurl. injection Hurl as <-. reflexivity.
Qed.

Lemma empty_path_goes_to_base_url_witness :
  let self := ApiClient.set_base_url test_client "https://api.example.com/v1/../v2?key=1#top" in
  let q := Sent.mk "GET" "https://api.example.com/v1/../v2?key=1#top"
             (Session.headers (ApiClient.session self)) [("params", VNone)] in
  (ApiClientConfig.base_url (ApiClient.config self) <> EmptyString
   /\ In q (requests_of (trace (ApiClient._make_request any_bracketed_host self "GET"
              EmptyString [("params", VNone)] (always (Received success_response))))))
  /\ Sent.url q = "https://api.example.com/v1/../v2?key=1#top".
Proof.
  intros self q.
  assert (H1 : ApiClientConfig.base_url (ApiClient.config self) <> EmptyString)
    by discriminate.
  assert (H2 : In q (requests_of (trace (ApiClient._make_request any_bracketed_host self
              "GET" EmptyString [("params", VNone)] (always (Received success_response))))))
    by (left; reflexivity).
  split; [split; assumption|].
  exact (empty_path_goes_to_base_url any_bracketed_host self "GET" [("params", VNone)]
           (always (Received success_response)) q H1 H2).
Defined.




(* ===================================================================== *)
(** * The facade *)
(* ===================================================================== *)


(* ===================================================================== *)
(** * Relative references and the last segment of the base path *)
(* ===================================================================== *)

Module SplitFacts.
Import PyStr.

Lemma split_nonempty (c : ascii) (s : string) : split c s <> [].
Proof.
  destruct s as [|d s']; cbn [split]; [discriminate|].
  destruct (Ascii.eqb d c); [discriminate|].
  destruct (split c s'); discriminate.
Qed.

(** Splitting at a separator splits the text before it and the text after it. *)
Lemma split_at_separator (c : ascii) (a b : string) :
  split c (a +:+ String c b) = split c a ++ split c b.
Proof.
  induction a as [|d a IH].
  - change (EmptyString +:+ String c b) with (String c b).
    cbn [split]. rewrite Ascii.eqb_refl. reflexivity.
  - change (String d a +:+ String c b) with (String d (a +:+ String c b)).
    cbn [split]. rewrite IH.
    destruct (Ascii.eqb d c); [reflexivity|].
    pose proof (split_nonempty c a) as Hne.
    destruct (split c a) as [|p ps]; [contradiction|]. reflexivity.
Qed.

Lemma split_without_separator (c : ascii) (s : string) :
  contains c s = false -> split c s = [s].
Proof.
  induction s as [|d s IH]; [reflexivity|].
  cbn [contains split]. destruct (Ascii.eqb d c); [discriminate|].
  intros H. rewrite (IH H). reflexivity.
Qed.

(** The directory part of a base path: the pieces kept for resolving a
    relative reference when the path is [dir/last]. *)
Lemma base_parts_of_dir_and_last (dir last : string) :
  contains "/" last = false ->
  (let base_parts := split "/" (dir +:+ String "/" last) in
   if negb (String.eqb (List.last base_parts EmptyString) EmptyString)
   then removelast base_parts else base_parts)
  = if is_empty last then split "/" dir ++ [EmptyString] else split "/" dir.
Proof.
  intros Hlast. cbn zeta.
  rewrite split_at_separator, (split_without_separator _ _ Hlast).
  rewrite last_last, removelast_last.
  destruct last; reflexivity.
Qed.

Lemma filter_inner_snoc (x y : string) (rest : list string) :
  Urllib.filter_inner (x :: rest ++ [y])
  = x :: List.filter (fun s => negb (is_empty s)) rest ++ [y].
Proof.
  cbn [Urllib.filter_inner].
  destruct (rest ++ [y]) as [|z l] eqn:E; [destruct rest; discriminate|].
  rewrite <- E, removelast_last, last_last. reflexivity.
Qed.

(** An empty piece between the pieces of the base path and those of the
    reference does not survive the filter. *)
Lemma filter_inner_drops_joint (l1 l2 : list string) :
  l1 <> [] -> l2 <> [] ->
  Urllib.filter_inner ((l1 ++ [EmptyString]) ++ l2) = Urllib.filter_inner (l1 ++ l2).
Proof.
  intros H1 H2.
  destruct l1 as [|x l1]; [contradiction|].
  destruct (exists_last H2) as (l2' & y & ->).
  replace (((x :: l1) ++ [EmptyString]) ++ l2' ++ [y])
    with (x :: (l1 ++ [EmptyString] ++ l2') ++ [y])
    by (cbn [app]; rewrite <- !app_assoc; reflexivity).
  replace ((x :: l1) ++ l2' ++ [y]) with (x :: (l1 ++ l2') ++ [y])
    by (cbn [app]; rewrite <- !app_assoc; reflexivity).
  rewrite !filter_inner_snoc, !List.filter_app. reflexivity.
Qed.

End SplitFacts.

(** X21. For a reference that is a path not starting with a slash, whatever
    follows the last slash of the base address's path plays no part, and
    neither do the parameters, query and fragment of the base address: a
    base path [dir/last] resolves the reference as the base path [dir/]
    does.  So [users] against [.../api/v1] lands under [.../api/], not under
    [.../api/v1/]. *)
Theorem relative_reference_ignores_last_base_segment
    (chk : string -> bool) (base1 base2 url bscheme bnetloc dir last : string)
    (bparams1 bquery1 bfragment1 bparams2 bquery2 bfragment2 : string)
    (scheme path params query fragment : string) :
  base1 <> EmptyString ->
  base2 <> EmptyString ->
  Urllib.urlparse chk base1 EmptyString
  = Ok (bscheme, bnetloc, dir +:+ String "/" last, bparams1, bquery1, bfragment1) ->
  Urllib.urlparse chk base2 EmptyString
  = Ok (bscheme, bnetloc, dir +:+ "/", bparams2, bquery2, bfragment2) ->
  PyStr.contains "/" last = false ->
  Urllib.urlparse chk url bscheme
  = Ok (scheme, EmptyString, path, params, query, fragment) ->
  path <> EmptyString ->
  PyStr.startswith "/" path = false ->
  Urllib.urljoin chk base1 url = Urllib.urljoin chk base2 url.
Proof.
  intros Hb1 Hb2 Hp1 Hp2 Hlast Hurl Hpath Hrel.
  unfold Urllib.urljoin.
  destruct base1 as [|c1 base1]; [contradiction|].
  destruct base2 as [|c2 base2]; [contradiction|].
  cbn [PyStr.is_empty].
  destruct (PyStr.is_empty url) eqn:Hempty.
  { destruct url; [| discriminate Hempty]. exfalso. apply Hpath.
    unfold Urllib.urlparse, Urllib.urlsplit in Hurl.
    cbn [PyStr.lstrip Urllib.remove_unsafe PyStr.remove PyStr.find PyStr.take
         String.eqb PyStr.contains] in Hurl.
    rewrite andb_false_r in Hurl. injection Hurl as _ Hp _ _ _. symmetry. exact Hp. }
  rewrite Hp1, Hp2, Hurl.
  destruct (negb (String.eqb scheme bscheme)
            || negb (Urllib.in_list scheme Urllib.uses_relative)); [reflexivity|].
  cbn [PyStr.is_empty negb andb]. rewrite andb_false_r.
  destruct path as [|pc path]; [contradiction|].
  cbn [PyStr.is_empty andb].
  cbn [PyStr.startswith] in Hrel.
  change (PyStr.take 1 (String pc path)) with (String pc EmptyString).
  replace (String.eqb (String pc EmptyString) "/") with false
    by (symmetry; cbn [String.eqb]; rewrite Hrel; reflexivity).
  pose proof (SplitFacts.base_parts_of_dir_and_last dir last Hlast) as H1.
  pose proof (SplitFacts.base_parts_of_dir_and_last dir EmptyString eq_refl) as H2.
  cbn zeta in H1, H2. cbn [PyStr.is_empty] in H2.
  change (dir +:+ "/") with (dir +:+ String "/" EmptyString).
  rewrite H1, H2.
  destruct (PyStr.is_empty last); [reflexivity|].
  rewrite (SplitFacts.filter_inner_drops_joint _ _
             (SplitFacts.split_nonempty "/" dir)
             (SplitFacts.split_nonempty "/" (String pc path))).
  reflexivity.
Qed.

Lemma relative_reference_ignores_last_base_segment_witness :
  ("https://host/api/v1" <> EmptyString
   /\ "https://host/api/?page=2" <> EmptyString
   /\ Urllib.urlparse any_bracketed_host "https://host/api/v1" EmptyString
      = Ok ("https", "host", "/api" +:+ String "/" "v1", EmptyString, EmptyString, EmptyString)
   /\ Urllib.urlparse any_bracketed_host "https://host/api/?page=2" EmptyString
      = Ok ("https", "host", "/api" +:+ "/", EmptyString, "page=2", EmptyString)
   /\ PyStr.contains "/" "v1" = false
   /\ Urllib.urlparse any_bracketed_host "users/7" "https"
      = Ok ("https", EmptyString, "users/7", EmptyString, EmptyString, EmptyString)
   /\ "users/7" <> EmptyString
   /\ PyStr.startswith "/" "users/7" = false)
  /\ Urllib.urljoin any_bracketed_host "https://host/api/v1" "users/7"
     = Urllib.urljoin any_bracketed_host "https://host/api/?page=2" "users/7".
Proof.
  assert (H1 : "https://host/api/v1" <> EmptyString) by discriminate.
  assert (H2 : "https://host/api/?page=2" <> EmptyString) by discriminate.
  assert (H3 : Urllib.urlparse any_bracketed_host "https://host/api/v1" EmptyString
               = Ok ("https", "host", "/api" +:+ String "/" "v1", EmptyString,
                     EmptyString, EmptyString)) by (vm_compute; reflexivity).
  assert (H4 : Urllib.urlparse any_bracketed_host "https://host/api/?page=2" EmptyString
               = Ok ("https", "host", "/api" +:+ "/", EmptyString, "page=2", EmptyString))
    by (vm_compute; reflexivity).
  assert (H5 : PyStr.contains "/" "v1" = false) by reflexivity.
  assert (H6 : Urllib.urlparse any_bracketed_host "users/7" "https"
               = Ok ("https", EmptyString, "users/7", EmptyString, EmptyString,
                     EmptyString)) by (vm_compute; reflexivity).
  assert (H7 : "users/7" <> EmptyString) by discriminate.
  assert (H8 : PyStr.startswith "/" "users/7" = false) by reflexivity.
  split; [repeat split; assumption|].
  exact (relative_reference_ignores_last_base_segment any_bracketed_host
           "https://host/api/v1" "https://host/api/?page=2" "users/7"
           "https" "host" "/api" "v1"
           EmptyString EmptyString EmptyString EmptyString "page=2" EmptyString
           "https" "users/7" EmptyString EmptyString EmptyString
           H1 H2 H3 H4 H5 H6 H7 H8).
Defined.

(** Both sides of the witness, worked out. *)
Example relative_reference_lands_beside_last_segment :
  Urllib.urljoin any_bracketed_host "https://host/api/v1" "users/7"
  = Ok "https://host/api/users/7".
Proof. vm_compute. reflexivity. Qed.

(* ===================================================================== *)
(** * What a call never does, and what it costs *)
(* ===================================================================== *)



(** [urlsplit], [urlparse] and [urljoin] raise nothing but [ValueError]. *)
Lemma urljoin_raises_value_error (chk : string -> bool) (base url : string) (e : exn) :
  Urllib.urljoin chk base url = Err e -> e = ExValueError.
Proof.
  assert (Hsplit : forall u s e', Urllib.urlsplit chk u s = Err e' -> e' = ExValueError).
  { intros u s e'. unfold Urllib.urlsplit.
    repeat match goal with
    | |- context [let '(_, _) := ?x in _] => destruct x
    | |- context [if ?b then _ else _] => destruct b
    | |- context [match ?x with Some _ => _ | None => _ end] => destruct x
    end; congruence. }
  assert (Hparse : forall u s e', Urllib.urlparse chk u s = Err e' -> e' = ExValueError).
  { intros u s e'. unfold Urllib.urlparse.
    destruct (Urllib.urlsplit chk u s) as [[[[[? ?] ?] ?] ?]|e''] eqn:E.
    - destruct (Urllib.in_list _ _ && PyStr.contains ";" _);
        [destruct (Urllib._splitparams _)|]; discriminate.
    - intros [= <-]. exact (Hsplit _ _ _ E). }
  unfold Urllib.urljoin.
  destruct (PyStr.is_empty base); [discriminate|].
  destruct (PyStr.is_empty url); [discriminate|].
  destruct (Urllib.urlparse chk base EmptyString)
    as [[[[[[bs bn] bp] bpa] bq] bf]|e1] eqn:E1;
    [| intros [= <-]; exact (Hparse _ _ _ E1)].
  destruct (Urllib.urlparse chk url bs) as [[[[[[s n] p] pa] q] f]|e2] eqn:E2;
    [| intros [= <-]; exact (Hparse _ _ _ E2)].
  repeat match goal with
  | |- context [if ?b then _ else _] => destruct b
  end; discriminate.
Qed.

(** X23. When the address cannot be resolved the call fails before it does
    anything: it raises [ValueError], the only exception [urljoin] has, and
    sends nothing, prints nothing and sleeps for nothing, whatever the
    retry settings. *)
Theorem unresolvable_address_raises_before_any_request
    (chk : string -> bool) (self : ApiClient.t) (method url : string)
    (kwargs : list (string * value)) (net : network) (e : exn) :
  Urllib.urljoin chk (ApiClientConfig.base_url (ApiClient.config self)) url = Err e ->
  ApiClient._make_request chk self method url kwargs net = (Err ExValueError, [], net).
Proof.
  intros Hurl.
  pose proof (urljoin_raises_value_error chk _ _ _ Hurl) as ->.
  unfold ApiClient._make_request, bind, lift. rewrite Hurl. reflexivity.
Qed.

Lemma unresolvable_address_raises_before_any_request_witness :
  let self := ApiClient.set_base_url test_client "https://[::1/api" in
  Urllib.urljoin any_bracketed_host (ApiClientConfig.base_url (ApiClient.config self))
    "/users" = Err ExValueError
  /\ ApiClient._make_request any_bracketed_host self "GET" "/users" [("params", VNone)]
       (always (Received success_response))
     = (Err ExValueError, [], always (Received success_response)).
Proof.
  intros self.
  assert (H : Urllib.urljoin any_bracketed_host
                (ApiClientConfig.base_url (ApiClient.config self)) "/users"
              = Err ExValueError) by (vm_compute; reflexivity).
  split; [exact H|].
  exact (unresolvable_address_raises_before_any_request any_bracketed_host self "GET"
           "/users" [("params", VNone)] (always (Received success_response))
           ExValueError H).
Defined.

(** X24. No request is given a timeout.  The constructor stores the
    configured timeout on the session object; none of the verbs passes it
    on: the keyword arguments of a request are never under the key
    [timeout]. *)
Theorem no_verb_passes_a_timeout
    (chk : string -> bool) (self : ApiClient.t) (url : string)
    (params data json_data : value) (net : network) (q : Sent.t) :
  In q (requests_of (trace (ApiClient.get chk self url params net)))
  \/ In q (requests_of (trace (ApiClient.delete chk self url net)))
  \/ In q (requests_of (trace (ApiClient.post chk self url data json_data net)))
  \/ In q (requests_of (trace (ApiClient.put chk self url data json_data net)))
  \/ In q (requests_of (trace (ApiClient.patch chk self url data json_data net))) ->
  forall v, ~ In ("timeout", v) (Sent.kwargs q).
Proof.
  unfold ApiClient.get, ApiClient.delete, ApiClient.post, ApiClient.put, ApiClient.patch.
  intros H v Hin.
  assert (Hk : Sent.kwargs q = [("params", params)] \/ Sent.kwargs q = []
               \/ Sent.kwargs q = ApiClient.body_kwargs data json_data).
  { destruct H as [H|[H|[H|[H|H]]]];
      destruct (requests_carry_session_headers chk self _ url _ net q H)
        as (_ & _ & _ & Hk); auto. }
  destruct Hk as [Hk|[Hk|Hk]]; rewrite Hk in Hin.
  - destruct Hin as [Hin|[]]. discriminate Hin.
  - destruct Hin.
  - destruct (body_kwargs_forwards data json_data) as (_ & _ & Hkeys).
    destruct (Hkeys _ _ Hin) as [Heq|Heq]; discriminate Heq.
Qed.

Lemma no_verb_passes_a_timeout_witness :
  let q := Sent.mk "POST" "https://api.example.com/users"
             (Session.headers (ApiClient.session test_client))
             [("json", VDict [("name", VStr "John Doe")])] in
  (In q (requests_of (trace (ApiClient.get any_bracketed_host test_client "/users"
           VNone (always (Received success_response)))))
   \/ In q (requests_of (trace (ApiClient.delete any_bracketed_host test_client "/users"
              (always (Received success_response)))))
   \/ In q (requests_of (trace (ApiClient.post any_bracketed_host test_client "/users"
              VNone (VDict [("name", VStr "John Doe")])
              (always (Received success_response)))))
   \/ In q (requests_of (trace (ApiClient.put any_bracketed_host test_client "/users"
              VNone (VDict [("name", VStr "John Doe")])
              (always (Received success_response)))))
   \/ In q (requests_of (trace (ApiClient.patch any_bracketed_host test_client "/users"
              VNone (VDict [("name", VStr "John Doe")])
              (always (Received success_response))))))
  /\ (ApiClientConfig.timeout (ApiClient.config test_client) = 30
      /\ forall v, ~ In ("timeout", v) (Sent.kwargs q)).
Proof.
  intros q.
  assert (H : In q (requests_of (trace (ApiClient.get any_bracketed_host test_client
                 "/users" VNone (always (Received success_response)))))
              \/ In q (requests_of (trace (ApiClient.delete any_bracketed_host test_client
                 "/users" (always (Received success_response)))))
              \/ In q (requests_of (trace (ApiClient.post any_bracketed_host test_client
                 "/users" VNone (VDict [("name", VStr "John Doe")])
                 (always (Received success_response)))))
              \/ In q (requests_of (trace (ApiClient.put any_bracketed_host test_client
                 "/users" VNone (VDict [("name", VStr "John Doe")])
                 (always (Received success_response)))))
              \/ In q (requests_of (trace (ApiClient.patch any_bracketed_host test_client
                 "/users" VNone (VDict [("name", VStr "John Doe")])
                 (always (Received success_response))))))
    by (right; right; left; left; reflexivity).
  split; [exact H|]. split; [reflexivity|].
  exact (no_verb_passes_a_timeout any_bracketed_host test_client "/users" VNone VNone
           (VDict [("name", VStr "John Doe")]) (always (Received success_response)) q H).
Defined.

Lemma total_backoff (d : Z) (k : nat) : forall a : nat,
  2 * fold_right Z.add 0 (backoff d a k)
  = d * Z.of_nat k * (2 * Z.of_nat a + Z.of_nat k + 1).
Proof.
  unfold backoff. induction k as [|k IH]; intros a; [cbn; lia|].
  cbn [seq List.map fold_right]. specialize (IH (S a)). lia.
Qed.

(** X25. The time a call spends sleeping is bounded by its configuration
    alone: with [retries >= 0] and [retry_delay >= 0] the pauses of a call
    add up to [retry_delay * k * (k + 1) / 2] for the number [k] of attempts
    that went round, hence to at most
    [retry_delay * retries * (retries + 1) / 2]. *)
Theorem total_sleep_is_bounded
    (chk : string -> bool) (self : ApiClient.t) (method url full_url : string)
    (kwargs : list (string * value)) (net : network) :
  let run := ApiClient._make_request chk self method url kwargs net in
  let d := ApiClientConfig.retry_delay (ApiClient.config self) in
  let retries := ApiClientConfig.retries (ApiClient.config self) in
  Urllib.urljoin chk (ApiClientConfig.base_url (ApiClient.config self)) url = Ok full_url ->
  0 <= retries ->
  0 <= d ->
  2 * total_sleep (trace run)
  = d * (Z.of_nat (length (requests_of (trace run))) - 1)
      * Z.of_nat (length (requests_of (trace run)))
  /\ 0 <= 2 * total_sleep (trace run) <= d * retries * (retries + 1).
Proof.
  intros run d retries Hurl Hr Hd. subst run d retries.
  destruct (make_request_shape chk self method url full_url kwargs net Hurl Hr)
    as (k & Hk & Htrace & _).
  unfold total_sleep. rewrite Htrace.
  rewrite requests_of_app, sleeps_of_app, requests_of_retry_trace,
    sleeps_of_retry_trace, requests_of_attempt_events, sleeps_of_attempt_events,
    length_app, repeat_length, app_nil_r, total_backoff.
  cbn [length]. split; [nia|]. split; nia.
Qed.

Lemma total_sleep_is_bounded_witness :
  let self := client_with 4 3 false in
  let net := always (RequestException "Connection refused") in
  let run := ApiClient._make_request any_bracketed_host self "GET" "/test"
               [("params", VNone)] net in
  (Urllib.urljoin any_bracketed_host
     (ApiClientConfig.base_url (ApiClient.config self)) "/test"
   = Ok "https://api.example.com/test"
   /\ 0 <= ApiClientConfig.retries (ApiClient.config self)
   /\ 0 <= ApiClientConfig.retry_delay (ApiClient.config self))
  /\ 2 * total_sleep (trace run)
     = 3 * (Z.of_nat (length (requests_of (trace run))) - 1)
         * Z.of_nat (length (requests_of (trace run)))
  /\ 0 <= 2 * total_sleep (trace run) <= 3 * 4 * (4 + 1).
Proof.
  intros self net run.
  assert (H1 : Urllib.urljoin any_bracketed_host
                 (ApiClientConfig.base_url (ApiClient.config self)) "/test"
               = Ok "https://api.example.com/test") by (vm_compute; reflexivity).
  assert (H2 : 0 <= ApiClientConfig.retries (ApiClient.config self))
    by (vm_compute; discriminate).
  assert (H3 : 0 <= ApiClientConfig.retry_delay (ApiClient.config self))
    by (vm_compute; discriminate).
  split; [repeat split; assumption|].
  exact (total_sleep_is_bounded any_bracketed_host self "GET" "/test"
           "https://api.example.com/test" [("params", VNone)] net H1 H2 H3).
Defined.
